(** * Document analyzer: the upload handler and its analyzer driver

    A shallow embedding of [pages/api/process-document.ts].  The repository
    holds two revisions of that file; both are embedded, as [V1] (the one
    with the pre-flight branch, spawning [python]) and [V2] (the one with the
    virtual-environment interpreter and the guarded parser).

    - [JS]       the string operations the handler uses
                 ([includes], [split], [trim], template literals);
    - [Runtime]  the world the handler acts on (files on disk, console,
                 launched processes), exceptions, responses, requests;
    - [V1], [V2] [runPythonScript] and [handler] of each revision;
    - [Page]     the handlers of the page that calls it ([pages/index.tsx]);
    - the properties of the parser, the exit-code gate, the handler and
      the page. *)

From Stdlib Require Import String Ascii.
From Stdlib Require Import List Bool Arith NArith ZArith Lia.
From Stdlib Require DecimalString.
Import ListNotations.

(* ===================================================================== *)
(** ** JavaScript strings *)
(* ===================================================================== *)

Module JS.

(** A JavaScript string is a sequence of UTF-16 code units. *)
Definition jsstring := list N.

(** A string literal of the source (ASCII text). *)
Definition lit (s : string) : jsstring :=
  List.map N_of_ascii (list_ascii_of_string s).

(** [a === b] on strings. *)
Fixpoint strictEq (a b : jsstring) : bool :=
  match a, b with
  | [], [] => true
  | x :: a', y :: b' => N.eqb x y && strictEq a' b'
  | _, _ => false
  end.

(** [s.startsWith(p)]. *)
Fixpoint startsWith (s p : jsstring) {struct p} : bool :=
  match p, s with
  | [], _ => true
  | _ :: _, [] => false
  | x :: p', y :: s' => N.eqb x y && startsWith s' p'
  end.

(** [s.includes(m)]. *)
Fixpoint includes (s m : jsstring) : bool :=
  startsWith s m ||
  match s with
  | [] => false
  | _ :: s' => includes s' m
  end.

(** [s.indexOf(m)], with [None] for [-1]. *)
Fixpoint indexOf (s m : jsstring) : option nat :=
  if startsWith s m then Some 0
  else match s with
       | [] => None
       | _ :: s' => option_map S (indexOf s' m)
       end.

(** [s.split(sep)] for a non-empty separator: the pieces between the
    successive, non-overlapping occurrences of [sep], searched from the left.
    Every round consumes at least one code unit, so [length s] rounds are
    enough ([splitN_fuel] below). *)
Fixpoint splitN (n : nat) (s sep : jsstring) : list jsstring :=
  match n with
  | O => [s]
  | S n' =>
      match indexOf s sep with
      | None => [s]
      | Some i => firstn i s :: splitN n' (skipn (i + length sep) s) sep
      end
  end.

Definition split (s sep : jsstring) : list jsstring :=
  splitN (length s) s sep.

(** WhiteSpace and LineTerminator code units of ECMAScript, the ones
    [String.prototype.trim] removes. *)
Definition isWhiteSpace (c : N) : bool :=
  (N.eqb c 9 || N.eqb c 10 || N.eqb c 11 || N.eqb c 12 || N.eqb c 13
   || N.eqb c 32 || N.eqb c 160 || N.eqb c 5760
   || (N.leb 8192 c && N.leb c 8202)
   || N.eqb c 8232 || N.eqb c 8233 || N.eqb c 8239 || N.eqb c 8287
   || N.eqb c 12288 || N.eqb c 65279)%N.

Fixpoint trimStart (s : jsstring) : jsstring :=
  match s with
  | c :: s' => if isWhiteSpace c then trimStart s' else s
  | [] => []
  end.

Definition trimEnd (s : jsstring) : jsstring := rev (trimStart (rev s)).

(** [s.trim()]. *)
Definition trim (s : jsstring) : jsstring := trimEnd (trimStart s).

(** [`${z}`] for an integer number. *)
Definition ofZ (z : Z) : jsstring :=
  lit (DecimalString.NilZero.string_of_int (Z.to_int z)).

(** [`${code}`] for the exit code of a closed child process: a number, or
    [null] when the child was ended by a signal. *)
Definition ofExitCode (code : option Z) : jsstring :=
  match code with
  | Some z => ofZ z
  | None => lit "null"
  end.

End JS.

Import JS.

(* ===================================================================== *)
(** ** The world of one request *)
(* ===================================================================== *)

Module Runtime.

(** A thrown value: an [Error] object with its message, or anything else. *)
Inductive Exn : Type :=
| ErrorObj (message : jsstring)
| NonError.

(** One call of [console.log] or [console.error]: its arguments. *)
Inductive LogArg : Type :=
| ArgStr (s : jsstring)
| ArgExn (e : Exn).

Inductive LogLevel : Type := LevelLog | LevelError.

Record LogLine : Type := { level : LogLevel; logged : list LogArg }.

(** One call of [spawn(command, args)].  The handler never passes an options
    object, so [shell] is Node's default, [false]: the arguments reach the
    child as they are, one token each. *)
Record SpawnCall : Type :=
  { command : jsstring; args : list jsstring; shell : bool }.

(** What is observable of a child process that was launched and closed:
    its [data] events in the order they were delivered (each chunk already
    decoded by [toString()]), its exit code, and what it did to the disk
    (the analyzer may rename the staged file). *)
Inductive ProcEvent : Type :=
| StdoutData (chunk : jsstring)
| StderrData (chunk : jsstring).

Record ProcessRun : Type :=
  { events : list ProcEvent;
    exitCode : option Z;
    diskEffect : list jsstring -> list jsstring }.

(** What the handler takes from its host: [process.cwd()], [path.join], and
    the external programs, as the run a launch yields. *)
Record Host : Type :=
  { cwd : jsstring;
    pathJoin : list jsstring -> jsstring;
    launch : jsstring -> list jsstring -> ProcessRun }.

(** The state the handler changes: the paths that exist on disk, the console
    and the processes launched so far. *)
Record World : Type :=
  { disk : list jsstring;
    console : list LogLine;
    spawned : list SpawnCall }.

(** A computation that may throw. *)
Inductive Outcome (A : Type) : Type :=
| Returned (a : A)
| Thrown (e : Exn).

Arguments Returned {A} a.
Arguments Thrown {A} e.

Definition M (A : Type) : Type := World -> Outcome A * World.

Definition ret {A} (a : A) : M A := fun w => (Returned a, w).

Definition throw {A} (e : Exn) : M A := fun w => (Thrown e, w).

Definition bind {A B} (m : M A) (k : A -> M B) : M B :=
  fun w =>
    match m w with
    | (Returned a, w') => k a w'
    | (Thrown e, w') => (Thrown e, w')
    end.

(** [try { m } catch (error) { h error }]. *)
Definition tryCatch {A} (m : M A) (h : Exn -> M A) : M A :=
  fun w =>
    match m w with
    | (Returned a, w') => (Returned a, w')
    | (Thrown e, w') => h e w'
    end.

Declare Scope js_scope.
Delimit Scope js_scope with js.

Notation "x <- m ;; k" := (bind m (fun x => k))
  (at level 61, m at next level, right associativity) : js_scope.
Notation "m ;; k" := (bind m (fun _ => k))
  (at level 61, right associativity) : js_scope.

(** *** Disk *)

Definition onDisk (p : jsstring) (d : list jsstring) : bool :=
  existsb (strictEq p) d.

Definition removePath (p : jsstring) (d : list jsstring) : list jsstring :=
  filter (fun q => negb (strictEq p q)) d.

Definition setDisk (d : list jsstring) (w : World) : World :=
  {| disk := d; console := console w; spawned := spawned w |}.

(** [fs.existsSync(p)]. *)
Definition existsSync (p : jsstring) : M bool :=
  fun w => (Returned (onDisk p (disk w)), w).

(** [fs.mkdirSync(p, { recursive: true })]. *)
Definition mkdirSync (p : jsstring) : M unit :=
  fun w => (Returned tt, setDisk (if onDisk p (disk w) then disk w else p :: disk w) w).

(** [fs.unlinkSync(p)]: removes the file, or throws when there is none. *)
Definition unlinkSync (p : jsstring) : M unit :=
  fun w =>
    if onDisk p (disk w)
    then (Returned tt, setDisk (removePath p (disk w)) w)
    else (Thrown (ErrorObj (lit "ENOENT: no such file or directory, unlink '"
                            ++ p ++ lit "'")), w).

(** *** Console *)

Definition consoleWrite (l : LogLevel) (xs : list LogArg) : M unit :=
  fun w =>
    (Returned tt,
     {| disk := disk w;
        console := console w ++ [{| level := l; logged := xs |}];
        spawned := spawned w |}).

Definition consoleError := consoleWrite LevelError.
Definition consoleLog := consoleWrite LevelLog.

(** *** Responses *)

Inductive JsonValue : Type :=
| JBool (b : bool)
| JString (s : jsstring).

(** The body of a response: nothing ([end()]) or an object ([json(...)]),
    its fields in the order of the object literal. *)
Inductive Body : Type :=
| NoBody
| Json (fields : list (jsstring * JsonValue)).

Record Response : Type :=
  { status : N;
    headers : list (jsstring * jsstring);
    body : Body }.

(** [res.status(code).json(obj)]. *)
Definition respondJson (code : N) (obj : list (jsstring * JsonValue)) : Response :=
  {| status := code; headers := []; body := Json obj |}.

(** [obj[key]] of a response body. *)
Fixpoint lookupField (key : jsstring) (obj : list (jsstring * JsonValue))
  : option JsonValue :=
  match obj with
  | [] => None
  | (k, v) :: obj' => if strictEq key k then Some v else lookupField key obj'
  end.

Definition bodyField (key : jsstring) (r : Response) : option JsonValue :=
  match body r with
  | NoBody => None
  | Json obj => lookupField key obj
  end.

(** *** Requests *)

(** A file formidable wrote to the upload directory. *)
Record File : Type := { filepath : jsstring }.

(** [files.file]: absent, one file, or an array.  formidable creates the
    entry when a part of that name arrives, so an array has a first element. *)
Inductive FileEntry : Type :=
| NoFile
| OneFile (f : File)
| FileArray (f : File) (rest : list File).

(** [fields.namingConvention]: absent, a string, or an array of strings. *)
Inductive FieldEntry : Type :=
| NoField
| OneField (s : jsstring)
| FieldArray (s : jsstring) (rest : list jsstring).

(** What [form.parse] does with the body of the request: it calls back with
    an error, or with the fields and the files it wrote to disk. *)
Inductive FormOutcome : Type :=
| FormError (err : Exn)
| FormParsed (namingConvention : FieldEntry) (file : FileEntry).

Record Request : Type :=
  { method : option jsstring;
    form : FormOutcome }.

(** [req.method === m]. *)
Definition methodIs (req : Request) (m : jsstring) : bool :=
  match method req with
  | Some m' => strictEq m' m
  | None => false
  end.

Definition entryFiles (e : FileEntry) : list File :=
  match e with
  | NoFile => []
  | OneFile f => [f]
  | FileArray f rest => f :: rest
  end.

(** The paths formidable wrote while parsing the body. *)
Definition stagedPaths (req : Request) : list jsstring :=
  match form req with
  | FormError _ => []
  | FormParsed _ e => List.map filepath (entryFiles e)
  end.

(** [await new Promise(... form.parse(req, ...))]: the uploaded files are
    on disk when the callback runs. *)
Definition formParse (req : Request) : M (FieldEntry * FileEntry) :=
  fun w =>
    match form req with
    | FormError err => (Thrown err, w)
    | FormParsed nc e => (Returned (nc, e), setDisk (stagedPaths req ++ disk w) w)
    end.

(** [!file] and [!namingConvention]: [undefined] and the empty string are
    falsy, objects and arrays are truthy. *)
Definition fileMissing (e : FileEntry) : bool :=
  match e with NoFile => true | _ => false end.

Definition fieldMissing (e : FieldEntry) : bool :=
  match e with
  | NoField => true
  | OneField [] => true
  | _ => false
  end.

(** [Array.isArray(x) ? x[0] : x] once [x] is known to be truthy. *)
Definition firstFile (e : FileEntry) : option File :=
  match e with
  | NoFile => None
  | OneFile f => Some f
  | FileArray f _ => Some f
  end.

Definition firstField (e : FieldEntry) : option jsstring :=
  match e with
  | NoField => None
  | OneField s => Some s
  | FieldArray s _ => Some s
  end.

(** Using a value that is [undefined] where an object or a string is needed
    throws a [TypeError].  After the two checks of the handler both values
    are defined ([firstFile_defined], [firstField_defined] below). *)
Definition defined {A} (x : option A) : M A :=
  match x with
  | Some a => ret a
  | None => throw (ErrorObj (lit "TypeError: value is undefined"))
  end.

(** [error instanceof Error ? error.message : 'Unknown error']. *)
Definition errorMessage (e : Exn) : jsstring :=
  match e with
  | ErrorObj m => m
  | NonError => lit "Unknown error"
  end.

(** What [runPythonScript] resolves with. *)
Record PythonScriptResult : Type :=
  { extractedInfo : jsstring;
    newFilename : jsstring }.

(** The three [let] variables of [runPythonScript]. *)
Record Vars : Type :=
  { v_extractedInfo : jsstring;
    v_stdErr : jsstring;
    v_newFilename : jsstring }.

Definition initialVars : Vars :=
  {| v_extractedInfo := []; v_stdErr := []; v_newFilename := [] |}.

(** [spawn(command, args)]: the call is recorded, and the run the host
    yields for it has had its effect on the disk by the time it closes. *)
Definition spawn (h : Host) (cmd : jsstring) (argv : list jsstring) : M ProcessRun :=
  fun w =>
    let run := launch h cmd argv in
    (Returned run,
     {| disk := diskEffect run (disk w);
        console := console w;
        spawned := spawned w ++ [{| command := cmd; args := argv; shell := false |}] |}).

(** [parts[i]] where the element is known to exist ([item_defined] and
    [item0_defined] below); the empty string stands for a missing one. *)
Definition item (i : nat) (parts : list jsstring) : jsstring := nth i parts [].

(** [code !== 0]. *)
Definition exitedNonZero (code : option Z) : bool :=
  match code with
  | Some 0%Z => false
  | _ => true
  end.

(** The error [runPythonScript] rejects with. *)
Definition exitError (code : option Z) (stdErr : jsstring) : Exn :=
  ErrorObj (lit "Python script exited with code " ++ ofExitCode code
            ++ lit ": " ++ stdErr).

Definition setExtractedInfo (x : jsstring) (v : Vars) : Vars :=
  {| v_extractedInfo := x; v_stdErr := v_stdErr v; v_newFilename := v_newFilename v |}.

Definition setNewFilename (x : jsstring) (v : Vars) : Vars :=
  {| v_extractedInfo := v_extractedInfo v; v_stdErr := v_stdErr v; v_newFilename := x |}.

(** [stdErr += data.toString()]. *)
Definition appendStdErr (x : jsstring) (v : Vars) : Vars :=
  {| v_extractedInfo := v_extractedInfo v;
     v_stdErr := v_stdErr v ++ x;
     v_newFilename := v_newFilename v |}.

Definition resultOf (v : Vars) : PythonScriptResult :=
  {| extractedInfo := v_extractedInfo v; newFilename := v_newFilename v |}.

(** The responses both revisions share. *)
Definition methodNotAllowed : Response :=
  respondJson 405 [(lit "message", JString (lit "Method not allowed"))].

Definition fieldsRequired : Response :=
  respondJson 400
    [(lit "success", JBool false);
     (lit "message", JString (lit "File and naming convention are required"))].

Definition processed (result : PythonScriptResult) : Response :=
  respondJson 200
    [(lit "success", JBool true);
     (lit "extractedInfo", JString (extractedInfo result));
     (lit "newFilename", JString (newFilename result));
     (lit "message", JString (lit "Document processed successfully"))].

Definition serverError (error : Exn) : Response :=
  respondJson 500
    [(lit "success", JBool false);
     (lit "message", JString (lit "Server error: " ++ errorMessage error))].

(** The markers of the analyzer's standard output. *)
Definition EXTRACTED : jsstring := lit "Extracted information:".
Definition GENERATED : jsstring := lit "Generated new filename:".
Definition RENAMED : jsstring := lit "File renamed successfully to:".

End Runtime.

Import Runtime.

Local Open Scope js_scope.

(* ===================================================================== *)
(** ** First revision: pre-flight branch, [python] from the path *)
(* ===================================================================== *)

Module V1.

(** The [data] listener of [pythonProcess.stdout]. *)
Definition onStdout (v : Vars) (output : jsstring) : Vars :=
  let v :=
    if includes output EXTRACTED
    then setExtractedInfo
           (trim (item 0 (split (item 1 (split output EXTRACTED)) GENERATED))) v
    else v in
  let v :=
    if includes output GENERATED
    then setNewFilename
           (trim (item 0 (split (item 1 (split output GENERATED)) RENAMED))) v
    else v in
  if includes output RENAMED
  then setNewFilename (trim (item 1 (split output RENAMED))) v
  else v.

(** The [data] listener of [pythonProcess.stderr]. *)
Definition onStderr (v : Vars) (data : jsstring) : Vars := appendStdErr data v.

Definition onEvent (v : Vars) (e : ProcEvent) : Vars :=
  match e with
  | StdoutData chunk => onStdout v chunk
  | StderrData chunk => onStderr v chunk
  end.

(** The [close] listener: reject on a code other than [0], resolve otherwise. *)
Definition onClose (v : Vars) (code : option Z) : M PythonScriptResult :=
  if exitedNonZero code
  then throw (exitError code (v_stdErr v))
  else ret (resultOf v).

Definition runPythonScript (h : Host) (filePath namingConvention : jsstring)
  : M PythonScriptResult :=
  let scriptPath :=
    pathJoin h [cwd h; lit "scripts"; lit "document_analyzer.py"] in
  pythonProcess <- spawn h (lit "python") [scriptPath; filePath; namingConvention] ;;
  onClose (fold_left onEvent (events pythonProcess) initialVars)
          (exitCode pythonProcess).

(** The response to a pre-flight request. *)
Definition preflight : Response :=
  {| status := 200;
     headers :=
       [(lit "Allow", lit "POST, OPTIONS");
        (lit "Access-Control-Allow-Origin", lit "*");
        (lit "Access-Control-Allow-Methods", lit "POST, OPTIONS");
        (lit "Access-Control-Allow-Headers", lit "Content-Type, Authorization")];
     body := NoBody |}.

Definition handler (h : Host) (req : Request) : M Response :=
  if methodIs req (lit "OPTIONS") then ret preflight
  else if negb (methodIs req (lit "POST")) then ret methodNotAllowed
  else
    tryCatch
      (let uploadDir := pathJoin h [lit "/tmp"; lit "document-analyzer"] in
       present <- existsSync uploadDir ;;
       (if negb present then mkdirSync uploadDir else ret tt) ;;
       parsed <- formParse req ;;
       let file := snd parsed in
       let namingConvention := fst parsed in
       if fileMissing file || fieldMissing namingConvention
       then ret fieldsRequired
       else
         uploadedFile <- defined (firstFile file) ;;
         namingConventionStr <- defined (firstField namingConvention) ;;
         let filePath := filepath uploadedFile in
         result <- runPythonScript h filePath namingConventionStr ;;
         tryCatch (unlinkSync filePath)
           (fun error =>
              consoleError [ArgStr (lit "Error deleting temporary file:");
                            ArgExn error]) ;;
         ret (processed result))
      (fun error =>
         consoleError [ArgStr (lit "Error processing document:"); ArgExn error] ;;
         ret (serverError error)).

End V1.

(* ===================================================================== *)
(** ** Second revision: interpreter of the virtual environment, guarded
       parser, no pre-flight branch *)
(* ===================================================================== *)

Module V2.

(** The parsing the [data] listener of [pythonProcess.stdout] does.
    [if (parts[1])] holds for a non-empty string. *)
Definition parseStdout (v : Vars) (output : jsstring) : Vars :=
  let v :=
    if includes output EXTRACTED
    then match nth_error (split output EXTRACTED) 1 with
         | Some ((_ :: _) as part) =>
             setExtractedInfo (trim (item 0 (split part GENERATED))) v
         | _ => v
         end
    else v in
  let v :=
    if includes output GENERATED
    then match nth_error (split output GENERATED) 1 with
         | Some ((_ :: _) as part) =>
             if includes part RENAMED
             then setNewFilename (trim (item 1 (split part RENAMED))) v
             else setNewFilename (trim (item 0 (split part RENAMED))) v
         | _ => v
         end
    else v in
  if includes output RENAMED
  then setNewFilename (trim (item 1 (split output RENAMED))) v
  else v.

Definition onStdout (v : Vars) (output : jsstring) : M Vars :=
  consoleLog [ArgStr (lit "Python stdout:"); ArgStr output] ;;
  ret (parseStdout v output).

Definition onStderr (v : Vars) (data : jsstring) : M Vars :=
  consoleError [ArgStr (lit "Python stderr:"); ArgStr data] ;;
  ret (appendStdErr data v).

Definition onEvent (v : Vars) (e : ProcEvent) : M Vars :=
  match e with
  | StdoutData chunk => onStdout v chunk
  | StderrData chunk => onStderr v chunk
  end.

(** The listeners run once per event, in the order of delivery. *)
Fixpoint onEvents (v : Vars) (es : list ProcEvent) : M Vars :=
  match es with
  | [] => ret v
  | e :: es' => v' <- onEvent v e ;; onEvents v' es'
  end.

Definition onClose (v : Vars) (code : option Z) : M PythonScriptResult :=
  if exitedNonZero code
  then throw (exitError code (v_stdErr v))
  else ret (resultOf v).

Definition runPythonScript (h : Host) (filePath namingConvention : jsstring)
  : M PythonScriptResult :=
  let scriptPath :=
    pathJoin h [cwd h; lit "scripts"; lit "document_analyzer.py"] in
  let pythonInterpreter :=
    pathJoin h [cwd h; lit "scripts"; lit "venv"; lit "bin"; lit "python"] in
  pythonProcess <- spawn h pythonInterpreter [scriptPath; filePath; namingConvention] ;;
  v <- onEvents initialVars (events pythonProcess) ;;
  onClose v (exitCode pythonProcess).

Definition handler (h : Host) (req : Request) : M Response :=
  if negb (methodIs req (lit "POST")) then ret methodNotAllowed
  else
    tryCatch
      (let uploadDir := pathJoin h [lit "/tmp"; lit "document-analyzer"] in
       present <- existsSync uploadDir ;;
       (if negb present then mkdirSync uploadDir else ret tt) ;;
       parsed <- formParse req ;;
       let file := snd parsed in
       let namingConvention := fst parsed in
       if fileMissing file || fieldMissing namingConvention
       then ret fieldsRequired
       else
         uploadedFile <- defined (firstFile file) ;;
         namingConventionStr <- defined (firstField namingConvention) ;;
         let filePath := filepath uploadedFile in
         result <- runPythonScript h filePath namingConventionStr ;;
         tryCatch (unlinkSync filePath)
           (fun error =>
              consoleError [ArgStr (lit "Error deleting temporary file:");
                            ArgExn error]) ;;
         ret (processed result))
      (fun error =>
         consoleError [ArgStr (lit "Error processing document:"); ArgExn error] ;;
         ret (serverError error)).

End V2.

(* ===================================================================== *)
(** ** Vocabulary of the statements *)
(* ===================================================================== *)

Module Obs.

(** Everything the child wrote to its standard error, in order. *)
Fixpoint stderrText (es : list ProcEvent) : jsstring :=
  match es with
  | [] => []
  | StderrData chunk :: es' => chunk ++ stderrText es'
  | StdoutData _ :: es' => stderrText es'
  end.

(** The chunks of standard output, in order. *)
Fixpoint stdoutChunks (es : list ProcEvent) : list jsstring :=
  match es with
  | [] => []
  | StdoutData chunk :: es' => chunk :: stdoutChunks es'
  | StderrData _ :: es' => stdoutChunks es'
  end.

(** The last chunk, if any, that satisfies [p]. *)
Fixpoint lastChunk (p : jsstring -> bool) (chunks : list jsstring) : option jsstring :=
  match chunks with
  | [] => None
  | c :: chunks' =>
      match lastChunk p chunks' with
      | Some c' => Some c'
      | None => if p c then Some c else None
      end
  end.

(** The second revision's listeners without their console output. *)
Definition stepV2 (v : Vars) (e : ProcEvent) : Vars :=
  match e with
  | StdoutData chunk => V2.parseStdout v chunk
  | StderrData chunk => appendStdErr chunk v
  end.

(** What the second revision's listeners write to the console. *)
Definition logV2 (e : ProcEvent) : LogLine :=
  match e with
  | StdoutData chunk =>
      {| level := LevelLog; logged := [ArgStr (lit "Python stdout:"); ArgStr chunk] |}
  | StderrData chunk =>
      {| level := LevelError; logged := [ArgStr (lit "Python stderr:"); ArgStr chunk] |}
  end.

(** The value the first revision takes from a chunk that holds a marker. *)
Definition extractedFrom (chunk : jsstring) : jsstring :=
  trim (item 0 (split (item 1 (split chunk EXTRACTED)) GENERATED)).

Definition filenameFrom (chunk : jsstring) : jsstring :=
  if includes chunk RENAMED
  then trim (item 1 (split chunk RENAMED))
  else trim (item 0 (split (item 1 (split chunk GENERATED)) RENAMED)).

(** The second revision assigns [extractedInfo] from a chunk when the marker
    is there and some text follows its first occurrence. *)
Definition assignsExtractedV2 (chunk : jsstring) : bool :=
  includes chunk EXTRACTED &&
  match nth_error (split chunk EXTRACTED) 1 with
  | Some (_ :: _) => true
  | _ => false
  end.

(** The value a list of chunks leaves in a variable that the chunks
    satisfying [p] assign, each with the value [from] takes from it. *)
Definition lastAssigned (p : jsstring -> bool) (from : jsstring -> jsstring)
    (chunks : list jsstring) : jsstring :=
  match lastChunk p chunks with
  | Some c => from c
  | None => []
  end.

Definition holdsExtracted (chunk : jsstring) : bool := includes chunk EXTRACTED.

Definition holdsFilename (chunk : jsstring) : bool :=
  includes chunk GENERATED || includes chunk RENAMED.

(** A request the handler hands to the analyzer: a [POST] whose form was
    parsed and holds a file and a naming convention; with the file and the
    convention the handler picks. *)
Definition acceptedUpload (req : Request) : option (File * jsstring) :=
  if methodIs req (lit "POST")
  then match form req with
       | FormParsed namingConvention file =>
           if fileMissing file || fieldMissing namingConvention then None
           else match firstFile file, firstField namingConvention with
                | Some f, Some s => Some (f, s)
                | _, _ => None
                end
       | FormError _ => None
       end
  else None.

(** The world once the upload directory is there. *)
Definition prepared (h : Host) (w : World) : World :=
  let uploadDir := pathJoin h [lit "/tmp"; lit "document-analyzer"] in
  if onDisk uploadDir (disk w) then w else setDisk (uploadDir :: disk w) w.

(** The world once formidable has written the uploaded files. *)
Definition staged (h : Host) (req : Request) (w : World) : World :=
  setDisk (stagedPaths req ++ disk (prepared h w)) (prepared h w).

(** The launch of the analyzer by each revision: the call, and the run the
    host yields for it. *)
Definition scriptPath (h : Host) : jsstring :=
  pathJoin h [cwd h; lit "scripts"; lit "document_analyzer.py"].

Definition callV1 (h : Host) (filePath namingConvention : jsstring) : SpawnCall :=
  {| command := lit "python";
     args := [scriptPath h; filePath; namingConvention];
     shell := false |}.

Definition callV2 (h : Host) (filePath namingConvention : jsstring) : SpawnCall :=
  {| command := pathJoin h [cwd h; lit "scripts"; lit "venv"; lit "bin"; lit "python"];
     args := [scriptPath h; filePath; namingConvention];
     shell := false |}.

Definition runOf (h : Host) (call : SpawnCall) : ProcessRun :=
  launch h (command call) (args call).

(** The world once the launched process has closed. *)
Definition afterRun (h : Host) (call : SpawnCall) (w : World) : World :=
  {| disk := diskEffect (runOf h call) (disk w);
     console := console w;
     spawned := spawned w ++ [call] |}.

Definition addLog (l : LogLine) (w : World) : World :=
  {| disk := disk w; console := console w ++ [l]; spawned := spawned w |}.

Definition addLogs (ls : list LogLine) (w : World) : World :=
  {| disk := disk w; console := console w ++ ls; spawned := spawned w |}.

(** The line the handler logs when the deletion throws, and the one it logs
    when the processing throws. *)
Definition deletionFailed (error : Exn) : LogLine :=
  {| level := LevelError;
     logged := [ArgStr (lit "Error deleting temporary file:"); ArgExn error] |}.

Definition processingFailed (error : Exn) : LogLine :=
  {| level := LevelError;
     logged := [ArgStr (lit "Error processing document:"); ArgExn error] |}.

(** The world the deletion of the staged file and its [catch] leave: the
    file gone, or the failure on the console. *)
Definition cleaned (filePath : jsstring) (w : World) : World :=
  if onDisk filePath (disk w)
  then setDisk (removePath filePath (disk w)) w
  else addLog (deletionFailed
                 (ErrorObj (lit "ENOENT: no such file or directory, unlink '"
                            ++ filePath ++ lit "'"))) w.

(** [res.getHeader(name)]. *)
Fixpoint headerOf (name : jsstring) (hs : list (jsstring * jsstring)) : option jsstring :=
  match hs with
  | [] => None
  | (k, v) :: hs' => if strictEq name k then Some v else headerOf name hs'
  end.

(** [path.join] on segments that need no normalisation. *)
Fixpoint joinSegments (segments : list jsstring) : jsstring :=
  match segments with
  | [] => lit "."
  | [x] => x
  | x :: rest => x ++ lit "/" ++ joinSegments rest
  end.

(** A host for the examples: the application lives in [/app], and every
    launch yields [run]. *)
Definition sampleHost (run : ProcessRun) : Host :=
  {| cwd := lit "/app"; pathJoin := joinSegments; launch := fun _ _ => run |}.

(** A run that leaves the disk alone. *)
Definition quietRun (es : list ProcEvent) (code : option Z) : ProcessRun :=
  {| events := es; exitCode := code; diskEffect := fun d => d |}.

Definition emptyWorld : World := {| disk := []; console := []; spawned := [] |}.

Definition stagedPdf : jsstring := lit "/tmp/document-analyzer/upload.pdf".

(** A well-formed upload: one file, one naming convention. *)
Definition uploadRequest : Request :=
  {| method := Some (lit "POST");
     form := FormParsed (OneField (lit "date_vendor"))
                        (OneFile {| filepath := stagedPdf |}) |}.

(** An upload whose naming convention is missing. *)
Definition uploadWithoutConvention : Request :=
  {| method := Some (lit "POST");
     form := FormParsed NoField (OneFile {| filepath := stagedPdf |}) |}.

(** An upload whose file part is missing. *)
Definition uploadWithoutFile : Request :=
  {| method := Some (lit "POST");
     form := FormParsed (OneField (lit "date_vendor")) NoFile |}.

Definition optionsRequest : Request :=
  {| method := Some (lit "OPTIONS"); form := FormError NonError |}.

Definition getRequest : Request :=
  {| method := Some (lit "GET"); form := FormError NonError |}.

End Obs.

Import Obs.

(* ===================================================================== *)
(** ** The page that calls the handler ([pages/index.tsx]) *)
(* ===================================================================== *)

Module Page.

(** A file the user picked or dropped. *)
Record PickedFile : Type := { pickedName : jsstring }.

(** The state of [Home]: its five [useState] cells. *)
Record State : Type :=
  { file : option PickedFile;
    namingConvention : jsstring;
    isProcessing : bool;
    dragActive : bool;
    result : option (list (jsstring * JsonValue)) }.

Definition initial : State :=
  {| file := None; namingConvention := []; isProcessing := false;
     dragActive := false; result := None |}.

Definition setFile (x : option PickedFile) (s : State) : State :=
  {| file := x; namingConvention := namingConvention s;
     isProcessing := isProcessing s; dragActive := dragActive s;
     result := result s |}.

Definition setNamingConvention (x : jsstring) (s : State) : State :=
  {| file := file s; namingConvention := x;
     isProcessing := isProcessing s; dragActive := dragActive s;
     result := result s |}.

Definition setIsProcessing (x : bool) (s : State) : State :=
  {| file := file s; namingConvention := namingConvention s;
     isProcessing := x; dragActive := dragActive s;
     result := result s |}.

Definition setDragActive (x : bool) (s : State) : State :=
  {| file := file s; namingConvention := namingConvention s;
     isProcessing := isProcessing s; dragActive := x;
     result := result s |}.

Definition setResult (x : option (list (jsstring * JsonValue))) (s : State) : State :=
  {| file := file s; namingConvention := namingConvention s;
     isProcessing := isProcessing s; dragActive := dragActive s;
     result := x |}.

(** What a handler does besides changing the state. *)
Inductive Effect : Type :=
| Alert (message : jsstring)
| Fetch (url method : jsstring) (fileField : PickedFile)
        (namingConventionField : jsstring)
| ConsoleError (label message : jsstring).

(** [files && files.length > 0 ? files[0] : nothing], for the [FileList] of
    an input or of a drop ([None] when there is no list). *)
Definition firstPicked (files : option (list PickedFile)) : option PickedFile :=
  match files with
  | Some (f :: _) => Some f
  | _ => None
  end.

Definition handleFileChange (files : option (list PickedFile)) (s : State) : State :=
  match firstPicked files with
  | Some f => setFile (Some f) s
  | None => s
  end.

(** [handleDrag], by the type of the event. *)
Definition handleDrag (type : jsstring) (s : State) : State :=
  if strictEq type (lit "dragenter") || strictEq type (lit "dragover")
  then setDragActive true s
  else if strictEq type (lit "dragleave")
       then setDragActive false s
       else s.

Definition handleDrop (files : option (list PickedFile)) (s : State) : State :=
  let s := setDragActive false s in
  match firstPicked files with
  | Some f => setFile (Some f) s
  | None => s
  end.

(** What [await response.json()] gives: the parsed object, or a
    [SyntaxError] with its message. *)
Inductive JsonOutcome : Type :=
| JsonData (data : list (jsstring * JsonValue))
| JsonFailure (message : jsstring).

(** What [await fetch(...)] gives: a rejection (a [TypeError] with its
    message), or a response with its status and body. *)
Inductive FetchOutcome : Type :=
| FetchRejected (message : jsstring)
| FetchResolved (status : N) (json : JsonOutcome).

(** [response.ok]. *)
Definition responseOk (status : N) : bool :=
  (N.leb 200 status && N.leb status 299)%N.

(** The [try] block up to [setResult(data)]: the data, or the message of the
    error thrown.  Every value thrown there is an [Error]. *)
Definition awaitData (net : FetchOutcome) : jsstring + list (jsstring * JsonValue) :=
  match net with
  | FetchRejected message => inl message
  | FetchResolved status json =>
      if negb (responseOk status)
      then inl (lit "Error: " ++ ofZ (Z.of_N status))
      else match json with
           | JsonData data => inr data
           | JsonFailure message => inl message
           end
  end.

(** The object the [catch] block stores. *)
Definition failureResult (message : jsstring) : list (jsstring * JsonValue) :=
  [(lit "extractedInfo", JString []);
   (lit "newFilename", JString []);
   (lit "success", JBool false);
   (lit "message", JString (lit "Error processing file: " ++ message))].

(** The first half of [handleSubmit], up to the [await fetch]: [None] when
    the alert is shown and the handler returns. *)
Definition submitBegin (s : State) : option State * list Effect :=
  match file s with
  | None => (None, [Alert (lit "Please select a file and enter a naming convention")])
  | Some f =>
      match namingConvention s with
      | [] => (None, [Alert (lit "Please select a file and enter a naming convention")])
      | _ :: _ =>
          (Some (setResult None (setIsProcessing true s)),
           [Fetch (lit "/api/process-document") (lit "POST") f (namingConvention s)])
      end
  end.

(** The second half, once the fetch has settled: [try], [catch], [finally],
    on the state of that moment. *)
Definition submitEnd (net : FetchOutcome) (s : State) : State * list Effect :=
  match awaitData net with
  | inr data => (setIsProcessing false (setResult (Some data) s), [])
  | inl message =>
      (setIsProcessing false (setResult (Some (failureResult message)) s),
       [ConsoleError (lit "Error processing file:") message])
  end.

(** [handleSubmit] with nothing happening in between. *)
Definition handleSubmit (net : FetchOutcome) (s : State) : State * list Effect :=
  match submitBegin s with
  | (None, effects) => (s, effects)
  | (Some s', effects) =>
      let (s'', effects') := submitEnd net s' in (s'', effects ++ effects')
  end.

Definition resetForm (s : State) : State := setResult None (setFile None s).

(** [disabled={isProcessing || !file || !namingConvention}]. *)
Definition submitDisabled (s : State) : bool :=
  isProcessing s
  || match file s with None => true | Some _ => false end
  || match namingConvention s with [] => true | _ :: _ => false end.

(** Truthiness of [result.success]. *)
Definition resultSuccess (data : list (jsstring * JsonValue)) : bool :=
  match lookupField (lit "success") data with
  | Some (JBool b) => b
  | Some (JString (_ :: _)) => true
  | _ => false
  end.

(** The heading of the result section, when it is shown. *)
Definition heading (s : State) : option jsstring :=
  match result s with
  | None => None
  | Some data =>
      Some (if resultSuccess data then lit "Analysis Complete"
            else lit "Analysis Failed")
  end.

End Page.

(* ===================================================================== *)
(** ** Vocabulary of the further statements *)
(* ===================================================================== *)

Module Glue.

(** The chunk holds the marker [m] only with some text after its first
    occurrence: the case in which the guard [if (parts[1])] of the second
    revision lets the assignment through. *)
Definition guardOpen (m chunk : jsstring) : bool :=
  negb (includes chunk m)
  || match nth_error (split chunk m) 1 with
     | Some (_ :: _) => true
     | _ => false
     end.


(** The upload directory of the handler. *)
Definition uploadDir (h : Host) : jsstring :=
  pathJoin h [lit "/tmp"; lit "document-analyzer"].


(** A page with a file picked and a convention typed. *)
Definition readyPage : Page.State :=
  {| Page.file := Some {| Page.pickedName := lit "invoice.pdf" |};
     Page.namingConvention := lit "date_vendor";
     Page.isProcessing := false;
     Page.dragActive := false;
     Page.result := None |}.

End Glue.

Import Glue.

(** A marker whose first code unit does not occur again in it cannot overlap
    a copy of itself; the three markers are of that kind. *)
Definition headUnique (m : jsstring) : bool :=
  match m with
  | [] => false
  | c :: m' => negb (existsb (N.eqb c) m')
  end.

(* ===================================================================== *)
(** ** Strings: facts about [includes], [indexOf] and [split] *)
(* ===================================================================== *)

Section StringFacts.

Lemma strictEq_refl (a : jsstring) : strictEq a a = true.
Proof.
  induction a as [|x a IH]; simpl; [reflexivity|].
  now rewrite N.eqb_refl, IH.
Qed.

Lemma strictEq_eq (a b : jsstring) : strictEq a b = true <-> a = b.
Proof.
  split.
  - revert b; induction a as [|x a IH]; intros [|y b]; simpl; try discriminate; auto.
    intros H. apply andb_true_iff in H as [Hx Hab].
    apply N.eqb_eq in Hx. f_equal; auto.
  - intros ->. apply strictEq_refl.
Qed.

Lemma startsWith_app (m s : jsstring) : startsWith (m ++ s) m = true.
Proof.
  induction m as [|x m IH]; simpl; [reflexivity|].
  now rewrite N.eqb_refl, IH.
Qed.

Lemma startsWith_length (s m : jsstring) :
  startsWith s m = true -> length m <= length s.
Proof.
  revert s; induction m as [|x m IH]; intros s H; simpl; [lia|].
  destruct s as [|y s]; simpl in *; [discriminate|].
  apply andb_true_iff in H as [_ H]. apply IH in H. lia.
Qed.

Lemma startsWith_skipn (s m : jsstring) :
  startsWith s m = true -> s = m ++ skipn (length m) s.
Proof.
  revert s; induction m as [|x m IH]; intros s H; simpl; [reflexivity|].
  destruct s as [|y s]; simpl in *; [discriminate|].
  apply andb_true_iff in H as [Hx H]. apply N.eqb_eq in Hx. subst y.
  f_equal. now apply IH.
Qed.

Lemma indexOf_startsWith (s m : jsstring) :
  startsWith s m = true -> indexOf s m = Some 0.
Proof. intros H. destruct s; simpl; now rewrite H. Qed.

Lemma includes_startsWith (s m : jsstring) :
  startsWith s m = true -> includes s m = true.
Proof. intros H. destruct s; simpl; now rewrite H. Qed.

Lemma indexOf_None (s m : jsstring) :
  indexOf s m = None <-> includes s m = false.
Proof.
  induction s as [|y s IH]; simpl.
  - destruct (startsWith [] m); simpl; split; congruence.
  - destruct (startsWith (y :: s) m); simpl; [split; congruence|].
    rewrite <- IH. destruct (indexOf s m); simpl; split; congruence.
Qed.

Lemma includes_indexOf (s m : jsstring) :
  includes s m = true -> exists i, indexOf s m = Some i.
Proof.
  intros H. destruct (indexOf s m) as [i|] eqn:E; [eauto|].
  apply indexOf_None in E. congruence.
Qed.

Lemma indexOf_found (s m : jsstring) (i : nat) :
  indexOf s m = Some i ->
  i + length m <= length s /\ s = firstn i s ++ m ++ skipn (i + length m) s.
Proof.
  revert i; induction s as [|y s IH]; intros i; simpl.
  - destruct (startsWith [] m) eqn:E; [|discriminate].
    intros [= <-]. split; [apply startsWith_length in E; simpl in *; lia|].
    now apply startsWith_skipn in E.
  - destruct (startsWith (y :: s) m) eqn:E.
    + intros [= <-]. split; [apply startsWith_length in E; simpl in *; lia|].
      now apply startsWith_skipn in E.
    + destruct (indexOf s m) as [j|]; simpl; [|discriminate].
      intros [= <-]. destruct (IH j eq_refl) as [Hlen Hs].
      split; [lia|]. simpl. now f_equal.
Qed.

Lemma splitN_fuel (m : jsstring) :
  m <> [] ->
  forall n s, length s <= n -> splitN n s m = split s m.
Proof.
  intros Hm. unfold split.
  induction n as [n IH] using lt_wf_ind. intros s Hn.
  destruct n as [|n].
  - destruct s; [reflexivity|simpl in Hn; lia].
  - destruct s as [|y s].
    + simpl. destruct (startsWith [] m) eqn:E; [|reflexivity].
      destruct m; [congruence|discriminate].
    + cbn [splitN length].
      destruct (indexOf (y :: s) m) as [i|] eqn:E; [|reflexivity].
      f_equal.
      assert (Hk : length (skipn (i + length m) (y :: s)) <= length s).
      { rewrite length_skipn. destruct m; [congruence|]. cbn [length]. lia. }
      rewrite (IH n) by (simpl in Hn; lia).
      symmetry. apply IH; simpl in *; lia.
Qed.

Lemma split_found (s m : jsstring) (i : nat) :
  m <> [] -> indexOf s m = Some i ->
  split s m = firstn i s :: split (skipn (i + length m) s) m.
Proof.
  intros Hm E. unfold split at 1.
  destruct (length s) as [|n] eqn:L.
  - destruct s; [|discriminate]. simpl in E.
    destruct m; [congruence|discriminate].
  - cbn [splitN]. rewrite E. f_equal. apply splitN_fuel; [assumption|].
    rewrite length_skipn. destruct m; [congruence|]. cbn [length] in *. lia.
Qed.

Lemma split_absent (s m : jsstring) :
  includes s m = false -> split s m = [s].
Proof.
  intros H. apply indexOf_None in H. unfold split.
  destruct (length s); simpl; [reflexivity|]. now rewrite H.
Qed.

(** [s.split(m)[0]] always exists. *)
Lemma item0_defined (s m : jsstring) :
  exists a rest, split s m = a :: rest.
Proof.
  unfold split. destruct (length s); simpl; eauto.
  destruct (indexOf s m); eauto.
Qed.

(** [s.split(m)[1]] exists once [s.includes(m)] holds. *)
Lemma item_defined (s m : jsstring) :
  m <> [] -> includes s m = true ->
  exists a b rest, split s m = a :: b :: rest.
Proof.
  intros Hm H. destruct (includes_indexOf _ _ H) as [i E].
  rewrite (split_found s m i Hm E).
  destruct (item0_defined (skipn (i + length m) s) m) as (b & rest & ->).
  eauto.
Qed.

Lemma startsWith_no_overlap (c : N) (r p x : jsstring) :
  ~ In c p -> startsWith (x ++ c :: r) p = true -> startsWith x p = true.
Proof.
  revert x; induction p as [|y p IH]; intros x Hc H; [reflexivity|].
  destruct x as [|a x]; simpl in *.
  - apply andb_true_iff in H as [H _]. apply N.eqb_eq in H. tauto.
  - apply andb_true_iff in H as [Ha H]. rewrite Ha. simpl.
    apply IH; tauto.
Qed.

Lemma headUnique_inv (m : jsstring) :
  headUnique m = true -> exists c m', m = c :: m' /\ ~ In c m'.
Proof.
  destruct m as [|c m']; simpl; [discriminate|].
  intros H. exists c, m'. split; [reflexivity|].
  intros Hin. apply negb_true_iff in H.
  assert (existsb (N.eqb c) m' = true); [|congruence].
  apply existsb_exists. exists c. split; [assumption|apply N.eqb_refl].
Qed.

(** The first occurrence of a marker after a text that does not hold it. *)
Lemma indexOf_after_prefix (m pre post : jsstring) :
  headUnique m = true -> includes pre m = false ->
  indexOf (pre ++ m ++ post) m = Some (length pre).
Proof.
  intros Hm. destruct (headUnique_inv _ Hm) as (c & m' & -> & Hc).
  induction pre as [|a pre IH]; intros H.
  - apply indexOf_startsWith. apply (startsWith_app (c :: m') post).
  - cbn [includes] in H. apply orb_false_iff in H as [Hs Hi].
    specialize (IH Hi).
    change ((a :: pre) ++ (c :: m') ++ post)
      with (a :: (pre ++ (c :: m') ++ post)).
    cbn [indexOf length]. rewrite IH.
    destruct (startsWith (a :: pre ++ (c :: m') ++ post) (c :: m')) eqn:E;
      [|reflexivity].
    exfalso. cbn [startsWith] in E, Hs.
    apply andb_true_iff in E as [Ea E]. rewrite Ea in Hs. simpl in Hs.
    apply (startsWith_no_overlap c (m' ++ post) m' pre Hc) in E. congruence.
Qed.

Lemma split_after_prefix (m pre post : jsstring) :
  headUnique m = true -> includes pre m = false ->
  split (pre ++ m ++ post) m = pre :: split post m.
Proof.
  intros Hm H.
  assert (Hne : m <> []) by (destruct m; [discriminate|congruence]).
  rewrite (split_found _ _ _ Hne (indexOf_after_prefix m pre post Hm H)).
  rewrite firstn_app, Nat.sub_diag, firstn_all. simpl. rewrite app_nil_r.
  f_equal. f_equal.
  rewrite app_assoc, skipn_app.
  rewrite <- (length_app pre m), skipn_all, Nat.sub_diag. reflexivity.
Qed.

(** What follows the first marker, up to its next occurrence. *)
Lemma item1_after_prefix (m pre post : jsstring) :
  headUnique m = true -> includes pre m = false ->
  item 1 (split (pre ++ m ++ post) m) = item 0 (split post m).
Proof.
  intros Hm H. rewrite (split_after_prefix m pre post Hm H).
  destruct (item0_defined post m) as (b & rest & ->). reflexivity.
Qed.

Lemma item0_absent (s m : jsstring) :
  includes s m = false -> item 0 (split s m) = s.
Proof. intros H. now rewrite (split_absent _ _ H). Qed.

Lemma includes_app_marker (m pre post : jsstring) :
  includes (pre ++ m ++ post) m = true.
Proof.
  induction pre as [|a pre IH].
  - apply includes_startsWith. exact (startsWith_app m post).
  - cbn [app includes]. rewrite IH. apply orb_true_r.
Qed.

Example split_sample :
  split (lit "a, b, c") (lit ", ") = [lit "a"; lit "b"; lit "c"].
Proof. reflexivity. Qed.

Example split_trailing : split (lit "a:") (lit ":") = [lit "a"; []].
Proof. reflexivity. Qed.

Example split_overlapping : split (lit "aaa") (lit "aa") = [[]; lit "a"].
Proof. reflexivity. Qed.

Example trim_sample : trim (lit "  x y  ") = lit "x y" /\ trim [160; 120; 10; 8233]%N = lit "x".
Proof. split; reflexivity. Qed.

Example ofExitCode_sample :
  ofExitCode (Some 1%Z) = lit "1" /\ ofExitCode (Some 0%Z) = lit "0"
  /\ ofExitCode (Some (-2)%Z) = lit "-2" /\ ofExitCode None = lit "null".
Proof. repeat split; reflexivity. Qed.

End StringFacts.

(* ===================================================================== *)
(** ** The listeners, chunk by chunk *)
(* ===================================================================== *)

Section Listeners.

Lemma EXTRACTED_headUnique : headUnique EXTRACTED = true.
Proof. reflexivity. Qed.

Lemma GENERATED_headUnique : headUnique GENERATED = true.
Proof. reflexivity. Qed.

Lemma RENAMED_headUnique : headUnique RENAMED = true.
Proof. reflexivity. Qed.

Lemma includes_app_r (x y m : jsstring) :
  includes y m = true -> includes (x ++ y) m = true.
Proof.
  intros H. induction x as [|a x IH]; [assumption|].
  cbn [app includes]. rewrite IH. apply orb_true_r.
Qed.

(** A chunk assigns [extractedInfo] exactly when it holds the marker. *)
Lemma V1_extracted_step (v : Vars) (c : jsstring) :
  v_extractedInfo (V1.onStdout v c)
  = if holdsExtracted c then extractedFrom c else v_extractedInfo v.
Proof.
  unfold V1.onStdout, holdsExtracted, extractedFrom.
  destruct (includes c EXTRACTED), (includes c GENERATED), (includes c RENAMED);
    reflexivity.
Qed.

(** A chunk assigns [newFilename] exactly when it holds one of the two
    filename markers, the renamed one first. *)
Lemma V1_filename_step (v : Vars) (c : jsstring) :
  v_newFilename (V1.onStdout v c)
  = if holdsFilename c then filenameFrom c else v_newFilename v.
Proof.
  unfold V1.onStdout, holdsFilename, filenameFrom.
  destruct (includes c EXTRACTED), (includes c GENERATED), (includes c RENAMED);
    reflexivity.
Qed.

Lemma V1_stdout_keeps_stdErr (v : Vars) (c : jsstring) :
  v_stdErr (V1.onStdout v c) = v_stdErr v.
Proof.
  unfold V1.onStdout.
  destruct (includes c EXTRACTED), (includes c GENERATED), (includes c RENAMED);
    reflexivity.
Qed.

Lemma V1_extracted_fold (es : list ProcEvent) (v : Vars) :
  v_extractedInfo (fold_left V1.onEvent es v)
  = match lastChunk holdsExtracted (stdoutChunks es) with
    | Some c => extractedFrom c
    | None => v_extractedInfo v
    end.
Proof.
  revert v; induction es as [|[c|c] es IH]; intros v; cbn [fold_left stdoutChunks lastChunk].
  - reflexivity.
  - rewrite IH. destruct (lastChunk holdsExtracted (stdoutChunks es)); [reflexivity|].
    cbn [V1.onEvent]. rewrite V1_extracted_step.
    destruct (holdsExtracted c); reflexivity.
  - rewrite IH. reflexivity.
Qed.

Lemma V1_filename_fold (es : list ProcEvent) (v : Vars) :
  v_newFilename (fold_left V1.onEvent es v)
  = match lastChunk holdsFilename (stdoutChunks es) with
    | Some c => filenameFrom c
    | None => v_newFilename v
    end.
Proof.
  revert v; induction es as [|[c|c] es IH]; intros v; cbn [fold_left stdoutChunks lastChunk].
  - reflexivity.
  - rewrite IH. destruct (lastChunk holdsFilename (stdoutChunks es)); [reflexivity|].
    cbn [V1.onEvent]. rewrite V1_filename_step.
    destruct (holdsFilename c); reflexivity.
  - rewrite IH. reflexivity.
Qed.

Lemma V1_stdErr_fold (es : list ProcEvent) (v : Vars) :
  v_stdErr (fold_left V1.onEvent es v) = v_stdErr v ++ stderrText es.
Proof.
  revert v; induction es as [|[c|c] es IH]; intros v; cbn [fold_left stderrText].
  - now rewrite app_nil_r.
  - rewrite IH. cbn [V1.onEvent]. now rewrite V1_stdout_keeps_stdErr.
  - rewrite IH. cbn [V1.onEvent V1.onStderr appendStdErr v_stdErr].
    now rewrite app_assoc.
Qed.

Lemma lastChunk_none (p : jsstring -> bool) (chunks : list jsstring) :
  (forall c, In c chunks -> p c = false) -> lastChunk p chunks = None.
Proof.
  induction chunks as [|c chunks IH]; intros H; [reflexivity|].
  cbn [lastChunk]. rewrite IH by (intros; apply H; now right).
  now rewrite (H c (or_introl eq_refl)).
Qed.

(** The second revision: the same scheme, with its guard on [parts[1]]. *)
Lemma V2_extracted_step (v : Vars) (c : jsstring) :
  v_extractedInfo (V2.parseStdout v c)
  = if assignsExtractedV2 c then extractedFrom c else v_extractedInfo v.
Proof.
  unfold V2.parseStdout, assignsExtractedV2, extractedFrom, item.
  destruct (nth_error (split c EXTRACTED) 1) as [part|] eqn:HE;
    [rewrite (nth_error_nth _ _ [] HE : nth 1 (split c EXTRACTED) [] = part);
     destruct part|];
    destruct (includes c EXTRACTED); cbn [andb];
    destruct (includes c GENERATED);
    destruct (nth_error (split c GENERATED) 1) as [[|x g]|];
    try destruct (includes (x :: g) RENAMED);
    destruct (includes c RENAMED); reflexivity.
Qed.

Lemma V2_extracted_fold (es : list ProcEvent) (v : Vars) :
  v_extractedInfo (fold_left stepV2 es v)
  = match lastChunk assignsExtractedV2 (stdoutChunks es) with
    | Some c => extractedFrom c
    | None => v_extractedInfo v
    end.
Proof.
  revert v; induction es as [|[c|c] es IH]; intros v; cbn [fold_left stdoutChunks lastChunk].
  - reflexivity.
  - rewrite IH. destruct (lastChunk assignsExtractedV2 (stdoutChunks es)); [reflexivity|].
    cbn [stepV2]. rewrite V2_extracted_step.
    destruct (assignsExtractedV2 c); reflexivity.
  - rewrite IH. reflexivity.
Qed.

(** The second revision's listeners compute [stepV2] and log [logV2]. *)
Lemma V2_onEvents_run (es : list ProcEvent) (v : Vars) (w : World) :
  V2.onEvents v es w
  = (Returned (fold_left stepV2 es v),
     {| disk := disk w;
        console := console w ++ List.map logV2 es;
        spawned := spawned w |}).
Proof.
  revert v w; induction es as [|e es IH]; intros v w.
  - cbn. rewrite app_nil_r. now destruct w.
  - cbn [V2.onEvents fold_left List.map]. unfold bind at 1.
    destruct e as [c|c]; cbn; rewrite IH; cbn; now rewrite <- app_assoc.
Qed.

End Listeners.

(* ===================================================================== *)
(** ** [runPythonScript] and [handler], step by step *)
(* ===================================================================== *)

Section Steps.

Variable h : Host.

Lemma methodIs_exclusive (req : Request) (a b : jsstring) :
  methodIs req a = true -> methodIs req b = true -> a = b.
Proof.
  unfold methodIs. destruct (method req) as [m|]; [|discriminate].
  intros Ha Hb. apply strictEq_eq in Ha, Hb. congruence.
Qed.

Lemma post_is_not_options (req : Request) :
  methodIs req (lit "POST") = true -> methodIs req (lit "OPTIONS") = false.
Proof.
  intros H. destruct (methodIs req (lit "OPTIONS")) eqn:E; [|reflexivity].
  pose proof (methodIs_exclusive req _ _ H E) as X. discriminate X.
Qed.

(** After the two checks of the handler, [file[0]] and
    [namingConvention[0]] are defined. *)
Lemma firstFile_defined (e : FileEntry) :
  fileMissing e = false -> exists f, firstFile e = Some f.
Proof. destruct e; simpl; [discriminate|eauto|eauto]. Qed.

Lemma firstField_defined (e : FieldEntry) :
  fieldMissing e = false -> exists s, firstField e = Some s.
Proof. destruct e; simpl; [discriminate|eauto|eauto]. Qed.

(** The first revision's [runPythonScript]: one launch, then the exit-code
    gate over what the listeners gathered. *)
Lemma V1_run (filePath namingConvention : jsstring) (w : World) :
  let call := callV1 h filePath namingConvention in
  let run := runOf h call in
  V1.runPythonScript h filePath namingConvention w
  = (if exitedNonZero (exitCode run)
     then Thrown (exitError (exitCode run) (stderrText (events run)))
     else Returned
            {| extractedInfo :=
                 lastAssigned holdsExtracted extractedFrom (stdoutChunks (events run));
               newFilename :=
                 lastAssigned holdsFilename filenameFrom (stdoutChunks (events run)) |},
     afterRun h call w).
Proof.
  intros call run. unfold V1.runPythonScript, bind, spawn, V1.onClose.
  fold (scriptPath h). fold call. change (launch h (lit "python") _) with run.
  destruct (exitedNonZero (exitCode run)).
  - unfold throw. rewrite V1_stdErr_fold. reflexivity.
  - unfold ret, resultOf, lastAssigned.
    rewrite V1_extracted_fold, V1_filename_fold. reflexivity.
Qed.

Lemma V2_stdout_keeps_stdErr (v : Vars) (c : jsstring) :
  v_stdErr (V2.parseStdout v c) = v_stdErr v.
Proof.
  unfold V2.parseStdout.
  destruct (includes c EXTRACTED);
    destruct (nth_error (split c EXTRACTED) 1) as [[|y e]|];
    destruct (includes c GENERATED);
    destruct (nth_error (split c GENERATED) 1) as [[|x g]|];
    try destruct (includes (x :: g) RENAMED);
    destruct (includes c RENAMED); reflexivity.
Qed.

Lemma V2_stdErr_fold (es : list ProcEvent) (v : Vars) :
  v_stdErr (fold_left stepV2 es v) = v_stdErr v ++ stderrText es.
Proof.
  revert v; induction es as [|[c|c] es IH]; intros v; cbn [fold_left stderrText].
  - now rewrite app_nil_r.
  - rewrite IH. cbn [stepV2]. now rewrite V2_stdout_keeps_stdErr.
  - rewrite IH. cbn [stepV2 appendStdErr v_stdErr]. now rewrite app_assoc.
Qed.

(** The second revision's [runPythonScript]: the same gate; its listeners
    also write every chunk to the console. *)
Lemma V2_run (filePath namingConvention : jsstring) (w : World) :
  let call := callV2 h filePath namingConvention in
  let run := runOf h call in
  V2.runPythonScript h filePath namingConvention w
  = (if exitedNonZero (exitCode run)
     then Thrown (exitError (exitCode run) (stderrText (events run)))
     else Returned (resultOf (fold_left stepV2 (events run) initialVars)),
     addLogs (List.map logV2 (events run)) (afterRun h call w)).
Proof.
  intros call run. unfold V2.runPythonScript, bind, spawn.
  fold (scriptPath h). fold call. change (launch h _ _) with run.
  rewrite V2_onEvents_run. unfold V2.onClose.
  destruct (exitedNonZero (exitCode run)).
  - unfold throw. rewrite V2_stdErr_fold. reflexivity.
  - reflexivity.
Qed.

(** The deletion of the staged file and its [catch]. *)
Lemma cleanup_run (filePath : jsstring) (w : World) :
  tryCatch (unlinkSync filePath)
    (fun error =>
       consoleError [ArgStr (lit "Error deleting temporary file:"); ArgExn error]) w
  = (Returned tt, cleaned filePath w).
Proof.
  unfold tryCatch, unlinkSync, cleaned.
  destruct (onDisk filePath (disk w)); reflexivity.
Qed.

Lemma prepare_run (w : World) :
  (if negb (onDisk (pathJoin h [lit "/tmp"; lit "document-analyzer"]) (disk w))
   then mkdirSync (pathJoin h [lit "/tmp"; lit "document-analyzer"])
   else ret tt) w
  = (Returned tt, prepared h w).
Proof.
  unfold prepared, mkdirSync, ret.
  destruct (onDisk _ (disk w)) eqn:E; cbn [negb]; [reflexivity|].
  rewrite E. reflexivity.
Qed.

Lemma formParse_run (req : Request) (nc : FieldEntry) (file : FileEntry) (w : World) :
  form req = FormParsed nc file ->
  formParse req w = (Returned (nc, file), setDisk (stagedPaths req ++ disk w) w).
Proof. intros HF. unfold formParse. now rewrite HF. Qed.

(** Runs the body of [handler] up to the call of [runPythonScript]. *)
Ltac enter_try :=
  unfold tryCatch at 1; unfold bind at 1; unfold existsSync;
  unfold bind at 1; rewrite prepare_run; unfold bind at 1.

(** An accepted upload in the first revision: stage, run, then either delete
    and answer 200, or log and answer 500. *)
Lemma V1_handler_accepted (req : Request) (f : File) (s : jsstring) (w : World) :
  acceptedUpload req = Some (f, s) ->
  V1.handler h req w
  = match V1.runPythonScript h (filepath f) s (staged h req w) with
    | (Returned result, w') => (Returned (processed result), cleaned (filepath f) w')
    | (Thrown error, w') =>
        (Returned (serverError error), addLog (processingFailed error) w')
    end.
Proof.
  unfold acceptedUpload. destruct (methodIs req (lit "POST")) eqn:HP; [|discriminate].
  destruct (form req) as [err|nc file] eqn:HF; [discriminate|].
  destruct (fileMissing file || fieldMissing nc) eqn:HM; [discriminate|].
  destruct (firstFile file) as [f'|] eqn:Hf; [|discriminate].
  destruct (firstField nc) as [s'|] eqn:Hs; [|discriminate].
  intros [= <- <-].
  unfold V1.handler. rewrite (post_is_not_options req HP), HP. cbn [negb].
  enter_try. rewrite (formParse_run req nc file _ HF). fold (staged h req w).
  cbn [fst snd]. rewrite HM, Hf, Hs.
  unfold defined, bind at 1, ret at 1. unfold bind at 1, ret at 1.
  unfold bind at 1.
  destruct (V1.runPythonScript h (filepath f') s' (staged h req w)) as [[result|error] w'].
  - unfold bind. rewrite cleanup_run. reflexivity.
  - unfold bind, consoleError, consoleWrite, ret. reflexivity.
Qed.

Lemma V2_handler_accepted (req : Request) (f : File) (s : jsstring) (w : World) :
  acceptedUpload req = Some (f, s) ->
  V2.handler h req w
  = match V2.runPythonScript h (filepath f) s (staged h req w) with
    | (Returned result, w') => (Returned (processed result), cleaned (filepath f) w')
    | (Thrown error, w') =>
        (Returned (serverError error), addLog (processingFailed error) w')
    end.
Proof.
  unfold acceptedUpload. destruct (methodIs req (lit "POST")) eqn:HP; [|discriminate].
  destruct (form req) as [err|nc file] eqn:HF; [discriminate|].
  destruct (fileMissing file || fieldMissing nc) eqn:HM; [discriminate|].
  destruct (firstFile file) as [f'|] eqn:Hf; [|discriminate].
  destruct (firstField nc) as [s'|] eqn:Hs; [|discriminate].
  intros [= <- <-].
  unfold V2.handler. rewrite HP. cbn [negb].
  enter_try. rewrite (formParse_run req nc file _ HF). fold (staged h req w).
  cbn [fst snd]. rewrite HM, Hf, Hs.
  unfold defined, bind at 1, ret at 1. unfold bind at 1, ret at 1.
  unfold bind at 1.
  destruct (V2.runPythonScript h (filepath f') s' (staged h req w)) as [[result|error] w'].
  - unfold bind. rewrite cleanup_run. reflexivity.
  - unfold bind, consoleError, consoleWrite, ret. reflexivity.
Qed.

End Steps.

(* ===================================================================== *)
(** ** The parser of the analyzer's standard output *)
(* ===================================================================== *)

(** C1, as the code has it: each chunk is parsed on its own, there is no
    accumulated buffer.  In both revisions [extractedInfo] is what the last
    chunk that assigns it yields: in the first revision a chunk assigns it
    when the chunk itself holds the whole marker, in the second when some
    text follows the marker as well; when no chunk does, it stays empty. *)
Theorem extractedInfo_parsed_chunk_by_chunk (es : list ProcEvent) (w : World) :
  v_extractedInfo (fold_left V1.onEvent es initialVars)
  = lastAssigned holdsExtracted extractedFrom (stdoutChunks es)
  /\ exists v,
       fst (V2.onEvents initialVars es w) = Returned v
       /\ v_extractedInfo v
          = lastAssigned assignsExtractedV2 extractedFrom (stdoutChunks es).
Proof.
  split.
  - unfold lastAssigned. rewrite V1_extracted_fold.
    destruct (lastChunk holdsExtracted (stdoutChunks es)); reflexivity.
  - rewrite V2_onEvents_run. eexists. split; [reflexivity|].
    unfold lastAssigned. rewrite V2_extracted_fold.
    destruct (lastChunk assignsExtractedV2 (stdoutChunks es)); reflexivity.
Qed.

(** C1, counterexample: the marker split as ["Extracted inf"] and
    ["ormation: X"] is in the concatenated output, yet neither revision
    captures anything from it. *)
Lemma split_marker_is_lost :
  includes (lit "Extracted inf" ++ lit "ormation: X") EXTRACTED = true
  /\ (exists r,
        fst (V1.runPythonScript
               (sampleHost (quietRun [StdoutData (lit "Extracted inf");
                                      StdoutData (lit "ormation: X")] (Some 0%Z)))
               stagedPdf (lit "date_vendor") emptyWorld) = Returned r
        /\ extractedInfo r = [] /\ extractedInfo r <> lit "X")
  /\ (exists r,
        fst (V2.runPythonScript
               (sampleHost (quietRun [StdoutData (lit "Extracted inf");
                                      StdoutData (lit "ormation: X")] (Some 0%Z)))
               stagedPdf (lit "date_vendor") emptyWorld) = Returned r
        /\ extractedInfo r = [] /\ extractedInfo r <> lit "X").
Proof.
  split; [reflexivity|].
  split; eexists; (split; [vm_compute; reflexivity|]);
    (split; [reflexivity|discriminate]).
Qed.

(** No chunk holds the marker: nothing is captured, whatever the chunks
    hold together. *)
Lemma marker_in_no_chunk (es : list ProcEvent) :
  (forall c, In c (stdoutChunks es) -> includes c EXTRACTED = false) ->
  v_extractedInfo (fold_left V1.onEvent es initialVars) = [].
Proof.
  intros H. rewrite V1_extracted_fold.
  now rewrite (lastChunk_none holdsExtracted _ H).
Qed.

(** A chunk that holds the whole marker, followed by text without markers. *)
Lemma V1_extracted_after_marker (v : Vars) (pre post : jsstring) :
  includes pre EXTRACTED = false ->
  includes post EXTRACTED = false ->
  includes post GENERATED = false ->
  v_extractedInfo (V1.onStdout v (pre ++ EXTRACTED ++ post)) = trim post.
Proof.
  intros Hpre HE HG. rewrite V1_extracted_step. unfold holdsExtracted, extractedFrom.
  rewrite includes_app_marker.
  rewrite (item1_after_prefix _ _ _ EXTRACTED_headUnique Hpre).
  now rewrite (item0_absent _ _ HE), (item0_absent _ _ HG).
Qed.

(** The text after the renamed marker is the new filename, whatever was
    captured before. *)
Lemma V1_renamed_after_marker (v : Vars) (pre post : jsstring) :
  includes pre RENAMED = false ->
  includes post RENAMED = false ->
  v_newFilename (V1.onStdout v (pre ++ RENAMED ++ post)) = trim post.
Proof.
  intros Hpre Hpost. rewrite V1_filename_step. unfold holdsFilename, filenameFrom.
  rewrite includes_app_marker, orb_true_r.
  rewrite (item1_after_prefix _ _ _ RENAMED_headUnique Hpre).
  now rewrite (item0_absent _ _ Hpost).
Qed.

(** C3: the two chunks of the specification, after any text that does not
    hold the first marker, give [extractedInfo = "Invoice #123"] and
    [newFilename = "2024-01-01_Acme_FINAL.pdf"]; and in any chunk the text
    after the renamed marker, trimmed, replaces whatever [newFilename] held. *)
Theorem renamed_marker_overrides (leading before after : jsstring) (v : Vars) :
  includes leading EXTRACTED = false ->
  includes before RENAMED = false ->
  includes after RENAMED = false ->
  (let parsed :=
     fold_left V1.onEvent
       [StdoutData (leading ++ lit "Extracted information: Invoice #123");
        StdoutData (lit " Generated new filename: 2024-01-01_Acme.pdf File renamed successfully to: 2024-01-01_Acme_FINAL.pdf")]
       initialVars in
   v_extractedInfo parsed = lit "Invoice #123"
   /\ v_newFilename parsed = lit "2024-01-01_Acme_FINAL.pdf")
  /\ v_newFilename (V1.onStdout v (before ++ RENAMED ++ after)) = trim after.
Proof.
  intros Hlead Hbefore Hafter. split; [|now apply V1_renamed_after_marker].
  cbn [fold_left V1.onEvent]. split.
  - rewrite V1_extracted_step.
    change (holdsExtracted (lit " Generated new filename: 2024-01-01_Acme.pdf File renamed successfully to: 2024-01-01_Acme_FINAL.pdf")) with false.
    cbv iota.
    change (lit "Extracted information: Invoice #123")
      with (EXTRACTED ++ lit " Invoice #123").
    rewrite V1_extracted_after_marker by (assumption || reflexivity).
    reflexivity.
  - rewrite V1_filename_step. reflexivity.
Qed.

Lemma renamed_marker_overrides_witness :
  (let parsed :=
     fold_left V1.onEvent
       [StdoutData (lit "..." ++ lit "Extracted information: Invoice #123");
        StdoutData (lit " Generated new filename: 2024-01-01_Acme.pdf File renamed successfully to: 2024-01-01_Acme_FINAL.pdf")]
       initialVars in
   v_extractedInfo parsed = lit "Invoice #123"
   /\ v_newFilename parsed = lit "2024-01-01_Acme_FINAL.pdf")
  /\ v_newFilename
       (V1.onStdout (setNewFilename (lit "draft.pdf") initialVars)
          (lit "done. " ++ RENAMED ++ lit " final.pdf "))
     = trim (lit " final.pdf ").
Proof.
  apply (renamed_marker_overrides (lit "...") (lit "done. ") (lit " final.pdf ")
           (setNewFilename (lit "draft.pdf") initialVars));
    reflexivity.
Defined.

(** The second revision parses the two chunks to the same fields. *)
Example V2_two_chunks :
  fst (V2.runPythonScript
         (sampleHost
            (quietRun
               [StdoutData (lit "...Extracted information: Invoice #123");
                StdoutData (lit " Generated new filename: 2024-01-01_Acme.pdf File renamed successfully to: 2024-01-01_Acme_FINAL.pdf")]
               (Some 0%Z)))
         stagedPdf (lit "date_vendor") emptyWorld)
  = Returned {| extractedInfo := lit "Invoice #123";
                newFilename := lit "2024-01-01_Acme_FINAL.pdf" |}.
Proof. vm_compute. reflexivity. Qed.

(** C10: [newFilename] is what the last chunk holding a filename marker
    yields, whichever marker the earlier chunks held; so a chunk that holds
    only the generated marker replaces a filename an earlier chunk took from
    the renamed marker. *)
Theorem later_chunk_overwrites
    (es : list ProcEvent) (v : Vars) (pre post : jsstring) :
  includes pre GENERATED = false ->
  includes post GENERATED = false ->
  includes (pre ++ GENERATED ++ post) RENAMED = false ->
  v_newFilename (fold_left V1.onEvent es initialVars)
  = lastAssigned holdsFilename filenameFrom (stdoutChunks es)
  /\ v_extractedInfo (fold_left V1.onEvent es initialVars)
     = lastAssigned holdsExtracted extractedFrom (stdoutChunks es)
  /\ v_newFilename (V1.onStdout v (pre ++ GENERATED ++ post)) = trim post.
Proof.
  intros Hpre Hpost HR. repeat split.
  - unfold lastAssigned. rewrite V1_filename_fold.
    destruct (lastChunk holdsFilename (stdoutChunks es)); reflexivity.
  - unfold lastAssigned. rewrite V1_extracted_fold.
    destruct (lastChunk holdsExtracted (stdoutChunks es)); reflexivity.
  - rewrite V1_filename_step. unfold holdsFilename, filenameFrom.
    rewrite includes_app_marker, HR. cbn [orb].
    rewrite (item1_after_prefix _ _ _ GENERATED_headUnique Hpre).
    rewrite (item0_absent _ _ Hpost).
    rewrite item0_absent; [reflexivity|].
    destruct (includes post RENAMED) eqn:E; [|reflexivity].
    rewrite <- HR. symmetry. rewrite app_assoc. now apply includes_app_r.
Qed.

Lemma later_chunk_overwrites_witness :
  v_newFilename
    (fold_left V1.onEvent
       [StdoutData (lit "File renamed successfully to: final.pdf");
        StdoutData (lit "Generated new filename: draft.pdf")] initialVars)
  = lastAssigned holdsFilename filenameFrom
      [lit "File renamed successfully to: final.pdf";
       lit "Generated new filename: draft.pdf"]
  /\ v_extractedInfo
       (fold_left V1.onEvent
          [StdoutData (lit "File renamed successfully to: final.pdf");
           StdoutData (lit "Generated new filename: draft.pdf")] initialVars)
     = lastAssigned holdsExtracted extractedFrom
         [lit "File renamed successfully to: final.pdf";
          lit "Generated new filename: draft.pdf"]
  /\ v_newFilename
       (V1.onStdout
          (V1.onStdout initialVars (lit "File renamed successfully to: final.pdf"))
          ([] ++ GENERATED ++ lit " draft.pdf"))
     = trim (lit " draft.pdf").
Proof.
  apply (later_chunk_overwrites
           [StdoutData (lit "File renamed successfully to: final.pdf");
            StdoutData (lit "Generated new filename: draft.pdf")]
           (V1.onStdout initialVars (lit "File renamed successfully to: final.pdf"))
           [] (lit " draft.pdf"));
    reflexivity.
Defined.

(** The stream of the witness, run: the draft name replaces the final one. *)
Example generated_after_renamed :
  fst (V1.runPythonScript
         (sampleHost
            (quietRun [StdoutData (lit "File renamed successfully to: final.pdf");
                       StdoutData (lit "Generated new filename: draft.pdf")]
                      (Some 0%Z)))
         stagedPdf (lit "date_vendor") emptyWorld)
  = Returned {| extractedInfo := []; newFilename := lit "draft.pdf" |}.
Proof. vm_compute. reflexivity. Qed.

(* ===================================================================== *)
(** ** The exit-code gate and the launch *)
(* ===================================================================== *)

Lemma exitedNonZero_true (code : option Z) :
  code <> Some 0%Z -> exitedNonZero code = true.
Proof. destruct code as [[| |]|]; simpl; congruence. Qed.

(** C4: a run that closes with a code other than [0] makes
    [runPythonScript] reject, whatever was parsed from its output, with a
    message made of the code and of everything written to standard error;
    the handler answers 500 with that message; and [runPythonScript]
    resolves only when the code is [0]. *)
Theorem nonzero_exit_is_failure
    (h : Host) (req : Request) (f : File) (s : jsstring) (w : World) :
  acceptedUpload req = Some (f, s) ->
  exitCode (runOf h (callV1 h (filepath f) s)) <> Some 0%Z ->
  forall code stdErr,
    code = exitCode (runOf h (callV1 h (filepath f) s)) ->
    stdErr = stderrText (events (runOf h (callV1 h (filepath f) s))) ->
    fst (V1.runPythonScript h (filepath f) s w)
    = Thrown (ErrorObj (lit "Python script exited with code " ++ ofExitCode code
                        ++ lit ": " ++ stdErr))
    /\ fst (V1.handler h req w)
       = Returned
           (respondJson 500
              [(lit "success", JBool false);
               (lit "message",
                JString (lit "Server error: "
                         ++ lit "Python script exited with code " ++ ofExitCode code
                         ++ lit ": " ++ stdErr))])
    /\ (forall w0 result,
          fst (V1.runPythonScript h (filepath f) s w0) = Returned result ->
          False).
Proof.
  intros Hreq Hcode code stdErr -> ->.
  apply exitedNonZero_true in Hcode.
  repeat split.
  - rewrite V1_run. cbv zeta. now rewrite Hcode.
  - rewrite (V1_handler_accepted h req f s w Hreq), V1_run. cbv zeta.
    now rewrite Hcode.
  - intros w0 result. rewrite V1_run. cbv zeta. rewrite Hcode. discriminate.
Qed.

Lemma nonzero_exit_is_failure_witness :
  fst (V1.runPythonScript
         (sampleHost
            (quietRun [StdoutData (lit "Extracted information: Invoice #123");
                       StderrData (lit "Traceback: ");
                       StderrData (lit "boom")] (Some 1%Z)))
         stagedPdf (lit "date_vendor") emptyWorld)
  = Thrown (ErrorObj (lit "Python script exited with code 1: Traceback: boom")).
Proof.
  apply (nonzero_exit_is_failure
           (sampleHost
              (quietRun [StdoutData (lit "Extracted information: Invoice #123");
                         StderrData (lit "Traceback: ");
                         StderrData (lit "boom")] (Some 1%Z)))
           uploadRequest {| filepath := stagedPdf |} (lit "date_vendor") emptyWorld
           eq_refl
           ltac:(discriminate)
           (Some 1%Z) (lit "Traceback: boom") eq_refl eq_refl).
Defined.

(** A run resolves exactly when its code is [0]. *)
Lemma V1_resolves_iff_zero (h : Host) (fp nc : jsstring) (w : World) :
  (exists result, fst (V1.runPythonScript h fp nc w) = Returned result)
  <-> exitCode (runOf h (callV1 h fp nc)) = Some 0%Z.
Proof.
  rewrite V1_run. cbv zeta.
  destruct (exitCode (runOf h (callV1 h fp nc))) as [[| |]|]; simpl; split;
    try (intros [r Hr]; discriminate); try discriminate; eauto.
Qed.

(** C6: a run that closes with code [0] and whose output held no marker
    resolves with both fields empty, and the handler answers with success. *)
Theorem no_marker_is_success
    (h : Host) (req : Request) (f : File) (s : jsstring) (w : World) :
  acceptedUpload req = Some (f, s) ->
  exitCode (runOf h (callV1 h (filepath f) s)) = Some 0%Z ->
  (forall c, In c (stdoutChunks (events (runOf h (callV1 h (filepath f) s)))) ->
             includes c EXTRACTED = false
             /\ includes c GENERATED = false
             /\ includes c RENAMED = false) ->
  fst (V1.runPythonScript h (filepath f) s w)
  = Returned {| extractedInfo := []; newFilename := [] |}
  /\ fst (V1.handler h req w)
     = Returned
         (respondJson 200
            [(lit "success", JBool true);
             (lit "extractedInfo", JString []);
             (lit "newFilename", JString []);
             (lit "message", JString (lit "Document processed successfully"))]).
Proof.
  intros Hreq Hcode Hnone.
  assert (Hrun : forall w0,
             fst (V1.runPythonScript h (filepath f) s w0)
             = Returned {| extractedInfo := []; newFilename := [] |}).
  { intros w0. rewrite V1_run. cbv zeta. rewrite Hcode. cbn [exitedNonZero fst].
    unfold lastAssigned.
    rewrite (lastChunk_none holdsExtracted) by (intros c Hc; apply (Hnone c Hc)).
    rewrite (lastChunk_none holdsFilename); [reflexivity|].
    intros c Hc. unfold holdsFilename.
    destruct (Hnone c Hc) as (_ & -> & ->). reflexivity. }
  split; [apply Hrun|].
  rewrite (V1_handler_accepted h req f s w Hreq).
  specialize (Hrun (staged h req w)).
  destruct (V1.runPythonScript h (filepath f) s (staged h req w)) as [[r|e] w'];
    cbn [fst] in *; [|discriminate].
  injection Hrun as ->. reflexivity.
Qed.

Lemma no_marker_is_success_witness :
  fst (V1.runPythonScript
         (sampleHost (quietRun [StdoutData (lit "Analyzing document");
                                StdoutData (lit "done")] (Some 0%Z)))
         stagedPdf (lit "date_vendor") emptyWorld)
  = Returned {| extractedInfo := []; newFilename := [] |}
  /\ fst (V1.handler
            (sampleHost (quietRun [StdoutData (lit "Analyzing document");
                                   StdoutData (lit "done")] (Some 0%Z)))
            uploadRequest emptyWorld)
     = Returned
         (respondJson 200
            [(lit "success", JBool true);
             (lit "extractedInfo", JString []);
             (lit "newFilename", JString []);
             (lit "message", JString (lit "Document processed successfully"))]).
Proof.
  apply (no_marker_is_success
           (sampleHost (quietRun [StdoutData (lit "Analyzing document");
                                  StdoutData (lit "done")] (Some 0%Z)))
           uploadRequest {| filepath := stagedPdf |} (lit "date_vendor") emptyWorld
           eq_refl eq_refl).
  intros c [<-|[<-|[]]]; repeat split; reflexivity.
Defined.

Lemma spawned_staged (h : Host) (req : Request) (w : World) :
  spawned (staged h req w) = spawned w.
Proof.
  unfold staged, prepared. destruct (onDisk _ (disk w)); reflexivity.
Qed.

(** C7: the analyzer is launched once, without a shell, with the script
    path followed by the staged path and the naming convention as they are,
    one token each and in that order; the handler passes the path of the
    first file and the first value of the field. *)
Theorem analyzer_gets_two_tokens
    (h : Host) (req : Request) (f : File) (s : jsstring)
    (filePath namingConvention : jsstring) (w : World) :
  acceptedUpload req = Some (f, s) ->
  spawned (snd (V1.runPythonScript h filePath namingConvention w))
  = spawned w ++ [{| command := lit "python";
                     args := [scriptPath h; filePath; namingConvention];
                     shell := false |}]
  /\ spawned (snd (V2.runPythonScript h filePath namingConvention w))
     = spawned w
       ++ [{| command :=
                pathJoin h [cwd h; lit "scripts"; lit "venv"; lit "bin"; lit "python"];
              args := [scriptPath h; filePath; namingConvention];
              shell := false |}]
  /\ spawned (snd (V1.handler h req w))
     = spawned w ++ [{| command := lit "python";
                        args := [scriptPath h; filepath f; s];
                        shell := false |}].
Proof.
  intros Hreq. repeat split.
  - rewrite V1_run. reflexivity.
  - rewrite V2_run. reflexivity.
  - rewrite (V1_handler_accepted h req f s w Hreq), V1_run. cbv zeta.
    destruct (exitedNonZero _); cbn [snd].
    + unfold addLog, afterRun. cbn [spawned]. now rewrite spawned_staged.
    + unfold cleaned, addLog, setDisk, afterRun.
      destruct (onDisk _ _); cbn [spawned]; now rewrite spawned_staged.
Qed.

Lemma analyzer_gets_two_tokens_witness :
  spawned
    (snd (V1.handler (sampleHost (quietRun [] (Some 0%Z)))
            {| method := Some (lit "POST");
               form := FormParsed
                         (FieldArray (lit "$(rm -rf /); `id` | a && b") [lit "other"])
                         (FileArray {| filepath := lit "/tmp/document-analyzer/a b;c.pdf" |}
                                    [{| filepath := lit "/tmp/document-analyzer/second.pdf" |}]) |}
            emptyWorld))
  = [{| command := lit "python";
        args := [lit "/app/scripts/document_analyzer.py";
                 lit "/tmp/document-analyzer/a b;c.pdf";
                 lit "$(rm -rf /); `id` | a && b"];
        shell := false |}].
Proof.
  apply (analyzer_gets_two_tokens
           (sampleHost (quietRun [] (Some 0%Z)))
           {| method := Some (lit "POST");
              form := FormParsed
                        (FieldArray (lit "$(rm -rf /); `id` | a && b") [lit "other"])
                        (FileArray {| filepath := lit "/tmp/document-analyzer/a b;c.pdf" |}
                                   [{| filepath := lit "/tmp/document-analyzer/second.pdf" |}]) |}
           {| filepath := lit "/tmp/document-analyzer/a b;c.pdf" |}
           (lit "$(rm -rf /); `id` | a && b")
           [] [] emptyWorld eq_refl).
Defined.

(* ===================================================================== *)
(** ** The handler: methods, validation, cleanup *)
(* ===================================================================== *)

(** A parsed form without a file or without a naming convention: the
    handler answers 400 right after the parsing. *)
Lemma V1_handler_rejected
    (h : Host) (req : Request) (nc : FieldEntry) (file : FileEntry) (w : World) :
  methodIs req (lit "POST") = true ->
  form req = FormParsed nc file ->
  fileMissing file || fieldMissing nc = true ->
  V1.handler h req w = (Returned fieldsRequired, staged h req w).
Proof.
  intros HP HF HM. unfold V1.handler.
  rewrite (post_is_not_options req HP), HP. cbn [negb].
  unfold tryCatch at 1. unfold bind at 1. unfold existsSync.
  unfold bind at 1. rewrite prepare_run. unfold bind at 1.
  rewrite (formParse_run req nc file _ HF). fold (staged h req w).
  cbn [fst snd]. rewrite HM. reflexivity.
Qed.

(** C5, as the code has it: a [POST] whose parsed form lacks the file or
    the naming convention is answered with status 400, [success: false] and
    the message ["File and naming convention are required"], and no process
    is launched for it. *)
Theorem missing_part_is_rejected
    (h : Host) (req : Request) (nc : FieldEntry) (file : FileEntry) (w : World) :
  methodIs req (lit "POST") = true ->
  form req = FormParsed nc file ->
  file = NoFile \/ nc = NoField ->
  fst (V1.handler h req w)
  = Returned
      (respondJson 400
         [(lit "success", JBool false);
          (lit "message", JString (lit "File and naming convention are required"))])
  /\ spawned (snd (V1.handler h req w)) = spawned w.
Proof.
  intros HP HF Hmiss.
  rewrite (V1_handler_rejected h req nc file w HP HF).
  - split; [reflexivity|]. cbn [snd]. apply spawned_staged.
  - destruct Hmiss as [-> | ->]; [reflexivity|apply orb_true_r].
Qed.

Lemma missing_part_is_rejected_witness :
  fst (V1.handler (sampleHost (quietRun [] (Some 0%Z))) uploadWithoutConvention emptyWorld)
  = Returned
      (respondJson 400
         [(lit "success", JBool false);
          (lit "message", JString (lit "File and naming convention are required"))])
  /\ spawned (snd (V1.handler (sampleHost (quietRun [] (Some 0%Z)))
                     uploadWithoutConvention emptyWorld))
     = spawned emptyWorld.
Proof.
  apply (missing_part_is_rejected
           (sampleHost (quietRun [] (Some 0%Z))) uploadWithoutConvention
           NoField (OneFile {| filepath := stagedPdf |}) emptyWorld
           eq_refl eq_refl (or_intror eq_refl)).
Defined.

(** C5, counterexample: the message of the answer to an upload without a
    file starts with a capital letter. *)
Lemma validation_message_differs :
  exists r,
    fst (V1.handler (sampleHost (quietRun [] (Some 0%Z))) uploadWithoutFile emptyWorld)
    = Returned r
    /\ status r = 400%N
    /\ bodyField (lit "message") r
       = Some (JString (lit "File and naming convention are required"))
    /\ bodyField (lit "message") r
       <> Some (JString (lit "file and naming convention are required")).
Proof.
  eexists. split; [vm_compute; reflexivity|].
  repeat split; [discriminate].
Qed.

(** C8, as the code has it: the first revision answers every [OPTIONS]
    request with status 200, no body and the accepted methods in its
    headers, and touches nothing: no staging, no launch, no deletion.  The
    second revision has no pre-flight branch; it answers 405, and touches
    nothing either. *)
Theorem preflight_in_first_revision (h : Host) (req : Request) (w : World) :
  methodIs req (lit "OPTIONS") = true ->
  V1.handler h req w = (Returned V1.preflight, w)
  /\ status V1.preflight = 200%N
  /\ body V1.preflight = NoBody
  /\ headerOf (lit "Allow") (headers V1.preflight) = Some (lit "POST, OPTIONS")
  /\ headerOf (lit "Access-Control-Allow-Methods") (headers V1.preflight)
     = Some (lit "POST, OPTIONS")
  /\ V2.handler h req w = (Returned methodNotAllowed, w).
Proof.
  intros HO. repeat split.
  - unfold V1.handler. now rewrite HO.
  - unfold V2.handler.
    destruct (methodIs req (lit "POST")) eqn:HP; [|reflexivity].
    pose proof (methodIs_exclusive req _ _ HP HO) as X. discriminate X.
Qed.

Lemma preflight_in_first_revision_witness :
  V1.handler (sampleHost (quietRun [] (Some 0%Z))) optionsRequest emptyWorld
  = (Returned V1.preflight, emptyWorld)
  /\ status V1.preflight = 200%N
  /\ body V1.preflight = NoBody
  /\ headerOf (lit "Allow") (headers V1.preflight) = Some (lit "POST, OPTIONS")
  /\ headerOf (lit "Access-Control-Allow-Methods") (headers V1.preflight)
     = Some (lit "POST, OPTIONS")
  /\ V2.handler (sampleHost (quietRun [] (Some 0%Z))) optionsRequest emptyWorld
     = (Returned methodNotAllowed, emptyWorld).
Proof.
  apply (preflight_in_first_revision
           (sampleHost (quietRun [] (Some 0%Z))) optionsRequest emptyWorld eq_refl).
Defined.

(** C8, counterexample: the second revision answers an [OPTIONS] request
    with 405 and a JSON body. *)
Lemma preflight_refused_by_second_revision :
  exists r,
    fst (V2.handler (sampleHost (quietRun [] (Some 0%Z))) optionsRequest emptyWorld)
    = Returned r
    /\ status r = 405%N
    /\ status r <> 200%N
    /\ body r <> NoBody
    /\ headers r = [].
Proof.
  eexists. split; [vm_compute; reflexivity|].
  repeat split; discriminate.
Qed.

(** C9: a request whose method is neither [POST] nor [OPTIONS] is answered
    with status 405 and the one field [message: "Method not allowed"], and
    nothing is parsed, staged or launched; in both revisions. *)
Theorem other_methods_are_refused (h : Host) (req : Request) (w : World) :
  methodIs req (lit "POST") = false ->
  methodIs req (lit "OPTIONS") = false ->
  V1.handler h req w = (Returned methodNotAllowed, w)
  /\ V2.handler h req w = (Returned methodNotAllowed, w)
  /\ status methodNotAllowed = 405%N
  /\ body methodNotAllowed
     = Json [(lit "message", JString (lit "Method not allowed"))]
  /\ bodyField (lit "success") methodNotAllowed = None.
Proof.
  intros HP HO. repeat split.
  - unfold V1.handler. now rewrite HO, HP.
  - unfold V2.handler. now rewrite HP.
Qed.

Lemma other_methods_are_refused_witness :
  V1.handler (sampleHost (quietRun [] (Some 0%Z))) getRequest emptyWorld
  = (Returned methodNotAllowed, emptyWorld)
  /\ V2.handler (sampleHost (quietRun [] (Some 0%Z))) getRequest emptyWorld
     = (Returned methodNotAllowed, emptyWorld)
  /\ status methodNotAllowed = 405%N
  /\ body methodNotAllowed
     = Json [(lit "message", JString (lit "Method not allowed"))]
  /\ bodyField (lit "success") methodNotAllowed = None.
Proof.
  apply (other_methods_are_refused
           (sampleHost (quietRun [] (Some 0%Z))) getRequest emptyWorld
           eq_refl eq_refl).
Defined.

(** A request without a method is refused as well. *)
Example no_method_is_refused :
  V1.handler (sampleHost (quietRun [] (Some 0%Z)))
    {| method := None; form := FormError NonError |} emptyWorld
  = (Returned methodNotAllowed, emptyWorld).
Proof. reflexivity. Qed.



(** On the failure path the world the handler leaves is the one
    [runPythonScript] left, with one more line on the console: the staged
    file is still there unless the analyzer itself removed it. *)
Lemma failure_path_skips_cleanup
    (h : Host) (req : Request) (f : File) (s : jsstring) (w : World) :
  acceptedUpload req = Some (f, s) ->
  exitCode (runOf h (callV1 h (filepath f) s)) <> Some 0%Z ->
  disk (snd (V1.handler h req w))
  = diskEffect (runOf h (callV1 h (filepath f) s)) (disk (staged h req w)).
Proof.
  intros Hreq Hcode. apply exitedNonZero_true in Hcode.
  rewrite (V1_handler_accepted h req f s w Hreq), V1_run. cbv zeta.
  rewrite Hcode. reflexivity.
Qed.

(** C2, the code at the failing inputs: when the analyzer exits with code 1
    the handler answers 500 and the staged file is still on disk; when the
    naming convention is missing it answers 400 and the file formidable
    wrote is still on disk; only after a successful run is the file gone. *)
Theorem staged_file_left_on_failure :
  (let out :=
     V1.handler (sampleHost (quietRun [StderrData (lit "boom")] (Some 1%Z)))
       uploadRequest emptyWorld in
   fst out = Returned (serverError (exitError (Some 1%Z) (lit "boom")))
   /\ onDisk stagedPdf (disk (snd out)) = true)
  /\ (let out :=
        V1.handler (sampleHost (quietRun [] (Some 0%Z)))
          uploadWithoutConvention emptyWorld in
      fst out = Returned fieldsRequired
      /\ onDisk stagedPdf (disk (snd out)) = true)
  /\ (let out :=
        V1.handler (sampleHost (quietRun [] (Some 0%Z))) uploadRequest emptyWorld in
      fst out = Returned (processed {| extractedInfo := []; newFilename := [] |})
      /\ onDisk stagedPdf (disk (snd out)) = false).
Proof. repeat split; vm_compute; reflexivity. Qed.

(* ===================================================================== *)
(** ** Further facts about the parser *)
(* ===================================================================== *)

Section ParserFacts.

Lemma trimStart_idempotent (s : jsstring) : trimStart (trimStart s) = trimStart s.
Proof.
  induction s as [|c s IH]; [reflexivity|].
  cbn [trimStart]. destruct (isWhiteSpace c) eqn:E; [exact IH|].
  cbn [trimStart]. now rewrite E.
Qed.

Lemma trimStart_head (s t : jsstring) (c : N) :
  trimStart s = c :: t -> isWhiteSpace c = false.
Proof.
  induction s as [|a s IH]; [discriminate|].
  cbn [trimStart]. destruct (isWhiteSpace a) eqn:E; [exact IH|].
  intros [= <- <-]. exact E.
Qed.

Lemma trimStart_split (s : jsstring) :
  exists ws, s = ws ++ trimStart s.
Proof.
  induction s as [|a s [ws IH]]; [now exists []|].
  cbn [trimStart]. destruct (isWhiteSpace a).
  - exists (a :: ws). cbn [app]. now f_equal.
  - now exists [].
Qed.

Lemma trimStart_fixed (s : jsstring) :
  match s with [] => True | c :: _ => isWhiteSpace c = false end ->
  trimStart s = s.
Proof. destruct s as [|c s]; [reflexivity|]. cbn [trimStart]. now intros ->. Qed.

(** [trim] removes all there is to remove. *)
Lemma trim_idempotent (s : jsstring) : trim (trim s) = trim s.
Proof.
  unfold trim, trimEnd.
  set (t := trimStart s). set (u := trimStart (rev t)).
  assert (Hu : trimStart u = u) by apply trimStart_idempotent.
  assert (HA : trimStart (rev u) = rev u).
  { apply trimStart_fixed. destruct (rev u) as [|a r] eqn:Er; [exact I|].
    destruct (trimStart_split (rev t)) as [ws Hws]. fold u in Hws.
    apply (f_equal (@rev N)) in Hws. rewrite rev_involutive, rev_app_distr, Er in Hws.
    apply (trimStart_head s (r ++ rev ws) a). exact Hws. }
  rewrite HA, rev_involutive, Hu. reflexivity.
Qed.

Lemma trim_empty : trim [] = [].
Proof. reflexivity. Qed.

Lemma startsWith_app_l (x y m : jsstring) :
  startsWith x m = true -> startsWith (x ++ y) m = true.
Proof.
  revert x; induction m as [|c m IH]; intros x H; [reflexivity|].
  destruct x as [|a x]; [discriminate|].
  cbn [app startsWith] in *. apply andb_true_iff in H as [-> H].
  now rewrite (IH x H).
Qed.

Lemma includes_app_l (x y m : jsstring) :
  includes x m = true -> includes (x ++ y) m = true.
Proof.
  induction x as [|a x IH]; intros H.
  - cbn [includes] in H. rewrite orb_false_r in H.
    apply includes_startsWith. now apply (startsWith_app_l [] y m).
  - cbn [includes app] in *. apply orb_true_iff in H as [H|H].
    + change (a :: x ++ y) with ((a :: x) ++ y).
      now rewrite (startsWith_app_l (a :: x) y m H).
    + rewrite (IH H). apply orb_true_r.
Qed.

Lemma includes_inside (a x b m : jsstring) :
  includes x m = true -> includes (a ++ x ++ b) m = true.
Proof. intros H. apply includes_app_r. now apply includes_app_l. Qed.

(** [s.split(m)[0]] is a prefix of [s]. *)
Lemma item0_prefix (s m : jsstring) :
  m <> [] -> exists b, s = item 0 (split s m) ++ b.
Proof.
  intros Hm. destruct (indexOf s m) as [i|] eqn:E.
  - rewrite (split_found s m i Hm E). cbn [item nth].
    exists (skipn i s). symmetry. apply firstn_skipn.
  - apply indexOf_None in E. rewrite (item0_absent s m E).
    exists []. now rewrite app_nil_r.
Qed.

(** [s.split(m)[1]] is a part of [s]. *)
Lemma item1_inside (s m : jsstring) :
  m <> [] -> includes s m = true ->
  exists a b, s = a ++ item 1 (split s m) ++ b.
Proof.
  intros Hm H. destruct (includes_indexOf s m H) as [i E].
  rewrite (split_found s m i Hm E).
  destruct (indexOf_found s m i E) as [_ Hs].
  destruct (item0_prefix (skipn (i + length m) s) m Hm) as [b Hb].
  destruct (item0_defined (skipn (i + length m) s) m) as (p & rest & Hp).
  rewrite Hp in *. cbn [item nth] in *.
  exists (firstn i s ++ m), b.
  rewrite <- app_assoc, <- Hb. exact Hs.
Qed.

Lemma nth_error_item (l : list jsstring) (i : nat) (p : jsstring) :
  nth_error l i = Some p -> item i l = p.
Proof. intros H. unfold item. now apply nth_error_nth. Qed.

Lemma marker_nonempty (m : jsstring) : headUnique m = true -> m <> [].
Proof. destruct m; [discriminate|congruence]. Qed.

End ParserFacts.

Section ParserProperties.

(** What the second revision leaves in [newFilename] after one chunk. *)
Lemma V2_filename_step (v : Vars) (c : jsstring) :
  v_newFilename (V2.parseStdout v c)
  = if includes c RENAMED then trim (item 1 (split c RENAMED))
    else if includes c GENERATED
         then match nth_error (split c GENERATED) 1 with
              | Some ((_ :: _) as part) =>
                  if includes part RENAMED
                  then trim (item 1 (split part RENAMED))
                  else trim (item 0 (split part RENAMED))
              | _ => v_newFilename v
              end
         else v_newFilename v.
Proof.
  unfold V2.parseStdout.
  destruct (includes c EXTRACTED);
    destruct (nth_error (split c EXTRACTED) 1) as [[|y e]|];
    destruct (includes c GENERATED);
    destruct (nth_error (split c GENERATED) 1) as [[|x g]|];
    try destruct (includes (x :: g) RENAMED);
    destruct (includes c RENAMED); reflexivity.
Qed.

(** The whole report in one chunk: the text between the first two markers
    is the extracted information, the text after the last one the filename;
    in both revisions. *)
Theorem whole_report_in_one_chunk (v : Vars) (pre a b c : jsstring) :
  includes pre EXTRACTED = false ->
  includes (a ++ GENERATED ++ b ++ RENAMED ++ c) EXTRACTED = false ->
  includes a GENERATED = false ->
  includes (pre ++ EXTRACTED ++ a ++ GENERATED ++ b) RENAMED = false ->
  includes c RENAMED = false ->
  (v_extractedInfo
     (V1.onStdout v (pre ++ EXTRACTED ++ a ++ GENERATED ++ b ++ RENAMED ++ c))
   = trim a
   /\ v_newFilename
        (V1.onStdout v (pre ++ EXTRACTED ++ a ++ GENERATED ++ b ++ RENAMED ++ c))
      = trim c)
  /\ (v_extractedInfo
        (V2.parseStdout v (pre ++ EXTRACTED ++ a ++ GENERATED ++ b ++ RENAMED ++ c))
      = trim a
      /\ v_newFilename
           (V2.parseStdout v (pre ++ EXTRACTED ++ a ++ GENERATED ++ b ++ RENAMED ++ c))
         = trim c).
Proof.
  intros Hpre Hrest Ha Hhead Hc.
  set (rest := a ++ GENERATED ++ b ++ RENAMED ++ c) in *.
  set (chunk := pre ++ EXTRACTED ++ rest).
  assert (Hsplit : split chunk EXTRACTED = [pre; rest]).
  { unfold chunk. rewrite (split_after_prefix _ _ _ EXTRACTED_headUnique Hpre).
    now rewrite (split_absent _ _ Hrest). }
  assert (Hfrom : extractedFrom chunk = trim a).
  { unfold extractedFrom. rewrite Hsplit. cbn [item nth]. unfold rest.
    rewrite (split_after_prefix _ _ _ GENERATED_headUnique Ha). reflexivity. }
  assert (Hchunk : chunk = (pre ++ EXTRACTED ++ a ++ GENERATED ++ b) ++ RENAMED ++ c).
  { unfold chunk, rest. now rewrite <- !app_assoc. }
  assert (Hname : trim (item 1 (split chunk RENAMED)) = trim c).
  { rewrite Hchunk.
    rewrite (item1_after_prefix _ _ _ RENAMED_headUnique Hhead).
    now rewrite (item0_absent _ _ Hc). }
  assert (HR : includes chunk RENAMED = true)
    by (rewrite Hchunk; apply includes_app_marker).
  assert (HE : includes chunk EXTRACTED = true) by apply includes_app_marker.
  repeat split.
  - rewrite V1_extracted_step. unfold holdsExtracted. now rewrite HE.
  - rewrite V1_filename_step. unfold holdsFilename, filenameFrom.
    now rewrite HR, orb_true_r.
  - rewrite V2_extracted_step. unfold assignsExtractedV2.
    rewrite HE, Hsplit. cbn [nth_error andb].
    destruct rest as [|x rest'] eqn:Er; [|exact Hfrom].
    exfalso. unfold rest in Er. destruct a; discriminate Er.
  - rewrite V2_filename_step. now rewrite HR.
Qed.

Lemma whole_report_in_one_chunk_witness :
  (v_extractedInfo
     (V1.onStdout initialVars
        (lit "Analyzing... " ++ EXTRACTED ++ lit " Invoice #123 " ++ GENERATED
         ++ lit " draft.pdf " ++ RENAMED ++ lit " final.pdf "))
   = trim (lit " Invoice #123 ")
   /\ v_newFilename
        (V1.onStdout initialVars
           (lit "Analyzing... " ++ EXTRACTED ++ lit " Invoice #123 " ++ GENERATED
            ++ lit " draft.pdf " ++ RENAMED ++ lit " final.pdf "))
      = trim (lit " final.pdf "))
  /\ (v_extractedInfo
        (V2.parseStdout initialVars
           (lit "Analyzing... " ++ EXTRACTED ++ lit " Invoice #123 " ++ GENERATED
            ++ lit " draft.pdf " ++ RENAMED ++ lit " final.pdf "))
      = trim (lit " Invoice #123 ")
      /\ v_newFilename
           (V2.parseStdout initialVars
              (lit "Analyzing... " ++ EXTRACTED ++ lit " Invoice #123 " ++ GENERATED
               ++ lit " draft.pdf " ++ RENAMED ++ lit " final.pdf "))
         = trim (lit " final.pdf ")).
Proof.
  apply (whole_report_in_one_chunk initialVars (lit "Analyzing... ")
           (lit " Invoice #123 ") (lit " draft.pdf ") (lit " final.pdf "));
    reflexivity.
Defined.

(** A marker that occurs twice in one chunk: the text between its first two
    occurrences is taken, not the text after the last one; in both
    revisions. *)
Theorem repeated_marker_first_wins (v : Vars) (pre a b : jsstring) :
  includes pre RENAMED = false ->
  includes a RENAMED = false ->
  v_newFilename (V1.onStdout v (pre ++ RENAMED ++ a ++ RENAMED ++ b)) = trim a
  /\ v_newFilename (V2.parseStdout v (pre ++ RENAMED ++ a ++ RENAMED ++ b)) = trim a.
Proof.
  intros Hpre Ha.
  assert (H1 : item 1 (split (pre ++ RENAMED ++ a ++ RENAMED ++ b) RENAMED) = a).
  { rewrite (item1_after_prefix _ _ _ RENAMED_headUnique Hpre).
    now rewrite (split_after_prefix _ _ _ RENAMED_headUnique Ha). }
  split.
  - rewrite V1_filename_step. unfold holdsFilename, filenameFrom.
    now rewrite includes_app_marker, orb_true_r, H1.
  - rewrite V2_filename_step. now rewrite includes_app_marker, H1.
Qed.

Lemma repeated_marker_first_wins_witness :
  v_newFilename
    (V1.onStdout initialVars
       ([] ++ RENAMED ++ lit " a.pdf " ++ RENAMED ++ lit " b.pdf"))
  = trim (lit " a.pdf ")
  /\ v_newFilename
       (V2.parseStdout initialVars
          ([] ++ RENAMED ++ lit " a.pdf " ++ RENAMED ++ lit " b.pdf"))
     = trim (lit " a.pdf ").
Proof.
  apply (repeated_marker_first_wins initialVars [] (lit " a.pdf ") (lit " b.pdf"));
    reflexivity.
Defined.

(** A chunk in which every marker it holds is followed by some text is
    parsed alike by the two revisions. *)
Lemma V2_parses_as_V1 (v : Vars) (c : jsstring) :
  guardOpen EXTRACTED c = true ->
  guardOpen GENERATED c = true ->
  V2.parseStdout v c = V1.onStdout v c.
Proof.
  unfold guardOpen. intros HE HG.
  unfold V2.parseStdout, V1.onStdout.
  assert (H1 :
    (if includes c EXTRACTED
     then match nth_error (split c EXTRACTED) 1 with
          | Some ((_ :: _) as part) =>
              setExtractedInfo (trim (item 0 (split part GENERATED))) v
          | _ => v
          end
     else v)
    = (if includes c EXTRACTED
       then setExtractedInfo
              (trim (item 0 (split (item 1 (split c EXTRACTED)) GENERATED))) v
       else v)).
  { destruct (includes c EXTRACTED); [|reflexivity]. cbn [negb orb] in HE.
    destruct (nth_error (split c EXTRACTED) 1) as [[|x p]|] eqn:E; try discriminate.
    now rewrite (nth_error_item _ _ _ E). }
  rewrite H1. clear H1 HE.
  set (v1 := if includes c EXTRACTED then _ else v).
  destruct (includes c GENERATED) eqn:IG; [|reflexivity].
  cbn [negb orb] in HG.
  destruct (nth_error (split c GENERATED) 1) as [[|x p]|] eqn:E; try discriminate.
  rewrite (nth_error_item _ _ _ E).
  destruct (includes (x :: p) RENAMED) eqn:IR; [|reflexivity].
  assert (HR : includes c RENAMED = true).
  { destruct (item1_inside c GENERATED (marker_nonempty _ GENERATED_headUnique) IG)
      as (a & b & Hc).
    rewrite (nth_error_item _ _ _ E) in Hc. rewrite Hc.
    now apply includes_inside. }
  rewrite HR. reflexivity.
Qed.

(** A chunk that ends with the generated marker: the first revision empties
    [newFilename], the second keeps what it held. *)
Theorem marker_at_end_of_chunk (v : Vars) (pre : jsstring) :
  includes pre GENERATED = false ->
  includes (pre ++ GENERATED) RENAMED = false ->
  v_newFilename (V1.onStdout v (pre ++ GENERATED)) = []
  /\ v_newFilename (V2.parseStdout v (pre ++ GENERATED)) = v_newFilename v.
Proof.
  intros Hpre HR.
  assert (Hsplit : split (pre ++ GENERATED) GENERATED = [pre; []]).
  { rewrite <- (app_nil_r GENERATED) at 1.
    now rewrite (split_after_prefix _ _ _ GENERATED_headUnique Hpre). }
  assert (HG : includes (pre ++ GENERATED) GENERATED = true).
  { rewrite <- (app_nil_r GENERATED) at 1. apply includes_app_marker. }
  split.
  - rewrite V1_filename_step. unfold holdsFilename, filenameFrom.
    rewrite HG, HR, Hsplit. reflexivity.
  - rewrite V2_filename_step. rewrite HR, HG, Hsplit. reflexivity.
Qed.

Lemma marker_at_end_of_chunk_witness :
  v_newFilename
    (V1.onStdout (setNewFilename (lit "final.pdf") initialVars)
       (lit "done. " ++ GENERATED))
  = []
  /\ v_newFilename
       (V2.parseStdout (setNewFilename (lit "final.pdf") initialVars)
          (lit "done. " ++ GENERATED))
     = v_newFilename (setNewFilename (lit "final.pdf") initialVars).
Proof.
  apply (marker_at_end_of_chunk (setNewFilename (lit "final.pdf") initialVars)
           (lit "done. "));
    reflexivity.
Defined.

Lemma Vars_ext (v v' : Vars) :
  v_extractedInfo v = v_extractedInfo v' ->
  v_stdErr v = v_stdErr v' ->
  v_newFilename v = v_newFilename v' ->
  v = v'.
Proof. destruct v, v'; cbn; congruence. Qed.

(** How the chunks of the two streams interleave does not matter, nor how
    standard error is cut into chunks: the same chunks of standard output
    and the same text on standard error leave the same variables. *)
Theorem interleaving_is_irrelevant (es es' : list ProcEvent) :
  stdoutChunks es = stdoutChunks es' ->
  stderrText es = stderrText es' ->
  fold_left V1.onEvent es initialVars = fold_left V1.onEvent es' initialVars.
Proof.
  intros Hout Herr. apply Vars_ext.
  - now rewrite !V1_extracted_fold, Hout.
  - now rewrite !V1_stdErr_fold, Herr.
  - now rewrite !V1_filename_fold, Hout.
Qed.

Lemma interleaving_is_irrelevant_witness :
  fold_left V1.onEvent
    [StderrData (lit "warn"); StdoutData (lit "Extracted information: A");
     StderrData (lit "ing")] initialVars
  = fold_left V1.onEvent
      [StdoutData (lit "Extracted information: A"); StderrData (lit "warning")]
      initialVars.
Proof.
  apply (interleaving_is_irrelevant
           [StderrData (lit "warn"); StdoutData (lit "Extracted information: A");
            StderrData (lit "ing")]
           [StdoutData (lit "Extracted information: A"); StderrData (lit "warning")]);
    reflexivity.
Defined.

(** Both fields are trimmed at every moment of a run: trimming them again
    changes nothing; in both revisions. *)
Theorem parsed_fields_are_trimmed (es : list ProcEvent) :
  (trim (v_extractedInfo (fold_left V1.onEvent es initialVars))
   = v_extractedInfo (fold_left V1.onEvent es initialVars)
   /\ trim (v_newFilename (fold_left V1.onEvent es initialVars))
      = v_newFilename (fold_left V1.onEvent es initialVars))
  /\ (trim (v_extractedInfo (fold_left stepV2 es initialVars))
      = v_extractedInfo (fold_left stepV2 es initialVars)
      /\ trim (v_newFilename (fold_left stepV2 es initialVars))
         = v_newFilename (fold_left stepV2 es initialVars)).
Proof.
  assert (G : forall (step : Vars -> ProcEvent -> Vars),
             (forall v e,
                 trim (v_extractedInfo v) = v_extractedInfo v
                 /\ trim (v_newFilename v) = v_newFilename v ->
                 trim (v_extractedInfo (step v e)) = v_extractedInfo (step v e)
                 /\ trim (v_newFilename (step v e)) = v_newFilename (step v e)) ->
             forall es v,
               trim (v_extractedInfo v) = v_extractedInfo v
               /\ trim (v_newFilename v) = v_newFilename v ->
               trim (v_extractedInfo (fold_left step es v))
               = v_extractedInfo (fold_left step es v)
               /\ trim (v_newFilename (fold_left step es v))
                  = v_newFilename (fold_left step es v)).
  { intros step Hstep. induction es0 as [|e es0 IH]; intros v Hv; [exact Hv|].
    cbn [fold_left]. apply IH. now apply Hstep. }
  split; apply G; try (split; reflexivity).
  - intros v [c|c] [H1 H2]; cbn [V1.onEvent]; [|exact (conj H1 H2)].
    rewrite V1_extracted_step, V1_filename_step. unfold extractedFrom, filenameFrom.
    destruct (holdsExtracted c), (holdsFilename c), (includes c RENAMED);
      split; (assumption || apply trim_idempotent).
  - intros v [c|c] [H1 H2]; cbn [stepV2]; [|exact (conj H1 H2)].
    rewrite V2_extracted_step, V2_filename_step. unfold extractedFrom.
    destruct (assignsExtractedV2 c), (includes c RENAMED), (includes c GENERATED);
      try destruct (nth_error (split c GENERATED) 1) as [[|x p]|];
      try destruct (includes (x :: p) RENAMED);
      split; (assumption || apply trim_idempotent).
Qed.

End ParserProperties.

(* ===================================================================== *)
(** ** The two revisions side by side *)
(* ===================================================================== *)

Section Revisions.

Variable h : Host.

Lemma V2_fold_as_V1 (es : list ProcEvent) (v : Vars) :
  (forall c, In c (stdoutChunks es) ->
             guardOpen EXTRACTED c = true /\ guardOpen GENERATED c = true) ->
  fold_left stepV2 es v = fold_left V1.onEvent es v.
Proof.
  revert v; induction es as [|[c|c] es IH]; intros v H; [reflexivity| |].
  - cbn [fold_left stepV2 V1.onEvent].
    destruct (H c (or_introl eq_refl)) as [HE HG].
    rewrite (V2_parses_as_V1 v c HE HG).
    apply IH. intros c' Hc'. apply H. now right.
  - cbn [fold_left stepV2 V1.onEvent V1.onStderr]. apply IH. exact H.
Qed.

Lemma V1_result_fold (es : list ProcEvent) :
  resultOf (fold_left V1.onEvent es initialVars)
  = {| extractedInfo := lastAssigned holdsExtracted extractedFrom (stdoutChunks es);
       newFilename := lastAssigned holdsFilename filenameFrom (stdoutChunks es) |}.
Proof.
  unfold resultOf, lastAssigned. now rewrite V1_extracted_fold, V1_filename_fold.
Qed.

(** When the host yields the same run for the two launches and every marker
    in every chunk is followed by some text, the two revisions of
    [runPythonScript] settle alike: the same result or the same error. *)
Theorem revisions_run_alike (filePath namingConvention : jsstring) (w : World) :
  runOf h (callV2 h filePath namingConvention)
  = runOf h (callV1 h filePath namingConvention) ->
  (forall c,
      In c (stdoutChunks (events (runOf h (callV1 h filePath namingConvention)))) ->
      guardOpen EXTRACTED c = true /\ guardOpen GENERATED c = true) ->
  fst (V2.runPythonScript h filePath namingConvention w)
  = fst (V1.runPythonScript h filePath namingConvention w).
Proof.
  intros Hrun Hguard. rewrite V2_run, V1_run. cbv zeta. rewrite Hrun.
  destruct (exitedNonZero _); cbn [fst]; [reflexivity|].
  rewrite (V2_fold_as_V1 _ _ Hguard). now rewrite V1_result_fold.
Qed.

(** A form that could not be parsed: the handler logs and answers 500. *)
Lemma V1_handler_parse_error (req : Request) (err : Exn) (w : World) :
  methodIs req (lit "POST") = true ->
  form req = FormError err ->
  V1.handler h req w
  = (Returned (serverError err), addLog (processingFailed err) (prepared h w)).
Proof.
  intros HP HF. unfold V1.handler.
  rewrite (post_is_not_options req HP), HP. cbn [negb].
  unfold tryCatch at 1. unfold bind at 1. unfold existsSync.
  unfold bind at 1. rewrite prepare_run. unfold bind at 1.
  unfold formParse. rewrite HF. reflexivity.
Qed.

Lemma V2_handler_parse_error (req : Request) (err : Exn) (w : World) :
  methodIs req (lit "POST") = true ->
  form req = FormError err ->
  V2.handler h req w
  = (Returned (serverError err), addLog (processingFailed err) (prepared h w)).
Proof.
  intros HP HF. unfold V2.handler. rewrite HP. cbn [negb].
  unfold tryCatch at 1. unfold bind at 1. unfold existsSync.
  unfold bind at 1. rewrite prepare_run. unfold bind at 1.
  unfold formParse. rewrite HF. reflexivity.
Qed.

Lemma V2_handler_rejected
    (req : Request) (nc : FieldEntry) (file : FileEntry) (w : World) :
  methodIs req (lit "POST") = true ->
  form req = FormParsed nc file ->
  fileMissing file || fieldMissing nc = true ->
  V2.handler h req w = (Returned fieldsRequired, staged h req w).
Proof.
  intros HP HF HM. unfold V2.handler. rewrite HP. cbn [negb].
  unfold tryCatch at 1. unfold bind at 1. unfold existsSync.
  unfold bind at 1. rewrite prepare_run. unfold bind at 1.
  rewrite (formParse_run req nc file _ HF). fold (staged h req w).
  cbn [fst snd]. rewrite HM. reflexivity.
Qed.

(** The four ways a request can go. *)
Lemma request_cases (req : Request) :
  methodIs req (lit "POST") = false
  \/ (methodIs req (lit "POST") = true
      /\ ((exists err, form req = FormError err /\ acceptedUpload req = None)
          \/ (exists nc file, form req = FormParsed nc file
                              /\ fileMissing file || fieldMissing nc = true
                              /\ acceptedUpload req = None)
          \/ (exists f s, acceptedUpload req = Some (f, s)))).
Proof.
  unfold acceptedUpload.
  destruct (methodIs req (lit "POST")); [right; split; [reflexivity|]|now left].
  destruct (form req) as [err|nc file]; [left; eauto|right].
  destruct (fileMissing file || fieldMissing nc) eqn:HM.
  - left. exists nc, file. auto.
  - right. apply orb_false_iff in HM as [Hf Hn].
    destruct (firstFile_defined file Hf) as [f ->].
    destruct (firstField_defined nc Hn) as [s ->]. eauto.
Qed.

End Revisions.

(* ===================================================================== *)
(** ** Further properties of the handler *)
(* ===================================================================== *)

Section HandlerProperties.





Lemma uploadDir_prepared (h : Host) (w : World) :
  onDisk (uploadDir h) (disk (prepared h w)) = true.
Proof.
  unfold prepared. fold (uploadDir h).
  destruct (onDisk (uploadDir h) (disk w)) eqn:E; [exact E|].
  cbn [setDisk disk onDisk existsb]. now rewrite strictEq_refl.
Qed.

Lemma console_staged (h : Host) (req : Request) (w : World) :
  console (staged h req w) = console w.
Proof. unfold staged, prepared. destruct (onDisk _ (disk w)); reflexivity. Qed.

Lemma spawned_prepared (h : Host) (w : World) :
  spawned (prepared h w) = spawned w.
Proof. unfold prepared. destruct (onDisk _ (disk w)); reflexivity. Qed.

Lemma console_prepared (h : Host) (w : World) :
  console (prepared h w) = console w.
Proof. unfold prepared. destruct (onDisk _ (disk w)); reflexivity. Qed.

Lemma V1_spawned_accepted
    (h : Host) (req : Request) (f : File) (s : jsstring) (w : World) :
  acceptedUpload req = Some (f, s) ->
  spawned (snd (V1.handler h req w)) = spawned w ++ [callV1 h (filepath f) s].
Proof.
  intros Hreq. rewrite (V1_handler_accepted h req f s w Hreq), V1_run. cbv zeta.
  destruct (exitedNonZero _); cbn [snd].
  - unfold addLog, afterRun. cbn [spawned]. now rewrite spawned_staged.
  - unfold cleaned, addLog, setDisk, afterRun.
    destruct (onDisk _ _); cbn [spawned]; now rewrite spawned_staged.
Qed.

Lemma V2_spawned_accepted
    (h : Host) (req : Request) (f : File) (s : jsstring) (w : World) :
  acceptedUpload req = Some (f, s) ->
  spawned (snd (V2.handler h req w)) = spawned w ++ [callV2 h (filepath f) s].
Proof.
  intros Hreq. rewrite (V2_handler_accepted h req f s w Hreq), V2_run. cbv zeta.
  destruct (exitedNonZero _); cbn [snd].
  - unfold addLog, addLogs, afterRun. cbn [spawned]. now rewrite spawned_staged.
  - unfold cleaned, addLog, addLogs, setDisk, afterRun. cbn [disk].
    destruct (onDisk _ _); cbn [spawned]; now rewrite spawned_staged.
Qed.


(** A body formidable cannot parse (an upload over the size limit, a
    malformed body): the handler answers 500 with the message of the error,
    or ["Unknown error"] when what was thrown is no [Error]; no process is
    launched; the upload directory is there and one line is logged. *)
Theorem unparsable_form_is_server_error
    (h : Host) (req : Request) (err : Exn) (w : World) :
  methodIs req (lit "POST") = true ->
  form req = FormError err ->
  fst (V1.handler h req w)
  = Returned
      (respondJson 500
         [(lit "success", JBool false);
          (lit "message",
           JString (lit "Server error: "
                    ++ match err with
                       | ErrorObj message => message
                       | NonError => lit "Unknown error"
                       end))])
  /\ spawned (snd (V1.handler h req w)) = spawned w
  /\ onDisk (uploadDir h) (disk (snd (V1.handler h req w))) = true
  /\ console (snd (V1.handler h req w))
     = console w
       ++ [{| level := LevelError;
              logged := [ArgStr (lit "Error processing document:"); ArgExn err] |}].
Proof.
  intros HP HF. rewrite (V1_handler_parse_error h req err w HP HF).
  cbn [fst snd]. repeat split.
  - unfold addLog. cbn [spawned]. apply spawned_prepared.
  - unfold addLog. cbn [disk]. apply uploadDir_prepared.
  - unfold addLog. cbn [console]. now rewrite console_prepared.
Qed.

Lemma unparsable_form_is_server_error_witness :
  fst (V1.handler (sampleHost (quietRun [] (Some 0%Z)))
         {| method := Some (lit "POST");
            form := FormError (ErrorObj (lit "maxFileSize exceeded")) |}
         emptyWorld)
  = Returned
      (respondJson 500
         [(lit "success", JBool false);
          (lit "message", JString (lit "Server error: " ++ lit "maxFileSize exceeded"))]).
Proof.
  apply (unparsable_form_is_server_error
           (sampleHost (quietRun [] (Some 0%Z)))
           {| method := Some (lit "POST");
              form := FormError (ErrorObj (lit "maxFileSize exceeded")) |}
           (ErrorObj (lit "maxFileSize exceeded")) emptyWorld eq_refl eq_refl).
Defined.

(** An empty naming convention: as a plain string it counts as missing and
    the upload is refused with 400; as the first element of an array it
    passes the check and the analyzer is launched with an empty argument. *)
Theorem empty_convention_string_or_array
    (h : Host) (req req' : Request) (f : File) (rest : list jsstring) (w : World) :
  methodIs req (lit "POST") = true ->
  form req = FormParsed (OneField []) (OneFile f) ->
  methodIs req' (lit "POST") = true ->
  form req' = FormParsed (FieldArray [] rest) (OneFile f) ->
  (fst (V1.handler h req w)
   = Returned
       (respondJson 400
          [(lit "success", JBool false);
           (lit "message", JString (lit "File and naming convention are required"))])
   /\ spawned (snd (V1.handler h req w)) = spawned w)
  /\ spawned (snd (V1.handler h req' w))
     = spawned w ++ [{| command := lit "python";
                        args := [scriptPath h; filepath f; []];
                        shell := false |}].
Proof.
  intros HP HF HP' HF'. split.
  - rewrite (V1_handler_rejected h req (OneField []) (OneFile f) w HP HF eq_refl).
    split; [reflexivity|]. cbn [snd]. apply spawned_staged.
  - apply (V1_spawned_accepted h req' f [] w).
    unfold acceptedUpload. now rewrite HP', HF'.
Qed.

Lemma empty_convention_string_or_array_witness :
  (fst (V1.handler (sampleHost (quietRun [] (Some 0%Z)))
          {| method := Some (lit "POST");
             form := FormParsed (OneField []) (OneFile {| filepath := stagedPdf |}) |}
          emptyWorld)
   = Returned
       (respondJson 400
          [(lit "success", JBool false);
           (lit "message", JString (lit "File and naming convention are required"))])
   /\ spawned
        (snd (V1.handler (sampleHost (quietRun [] (Some 0%Z)))
                {| method := Some (lit "POST");
                   form := FormParsed (OneField [])
                                      (OneFile {| filepath := stagedPdf |}) |}
                emptyWorld))
      = spawned emptyWorld)
  /\ spawned
       (snd (V1.handler (sampleHost (quietRun [] (Some 0%Z)))
               {| method := Some (lit "POST");
                  form := FormParsed (FieldArray [] [])
                                     (OneFile {| filepath := stagedPdf |}) |}
               emptyWorld))
     = spawned emptyWorld
       ++ [{| command := lit "python";
              args := [scriptPath (sampleHost (quietRun [] (Some 0%Z)));
                       filepath {| filepath := stagedPdf |}; []];
              shell := false |}].
Proof.
  apply (empty_convention_string_or_array
           (sampleHost (quietRun [] (Some 0%Z)))
           {| method := Some (lit "POST");
              form := FormParsed (OneField []) (OneFile {| filepath := stagedPdf |}) |}
           {| method := Some (lit "POST");
              form := FormParsed (FieldArray [] [])
                                 (OneFile {| filepath := stagedPdf |}) |}
           {| filepath := stagedPdf |} [] emptyWorld
           eq_refl eq_refl eq_refl eq_refl).
Defined.



(** A deletion that fails changes nothing in the answer: when the analyzer
    exits with code 0 and the staged file is no longer where formidable put
    it (the analyzer renamed it), the handler still answers with the result
    of the run, and the failure is one more line on the console. *)
Theorem failed_deletion_keeps_answer
    (h : Host) (req : Request) (f : File) (s : jsstring) (w : World) :
  acceptedUpload req = Some (f, s) ->
  exitCode (runOf h (callV1 h (filepath f) s)) = Some 0%Z ->
  onDisk (filepath f)
    (diskEffect (runOf h (callV1 h (filepath f) s)) (disk (staged h req w)))
  = false ->
  (exists result,
      fst (V1.runPythonScript h (filepath f) s w) = Returned result
      /\ fst (V1.handler h req w)
         = Returned
             (respondJson 200
                [(lit "success", JBool true);
                 (lit "extractedInfo", JString (extractedInfo result));
                 (lit "newFilename", JString (newFilename result));
                 (lit "message", JString (lit "Document processed successfully"))]))
  /\ console (snd (V1.handler h req w))
     = console w
       ++ [{| level := LevelError;
              logged :=
                [ArgStr (lit "Error deleting temporary file:");
                 ArgExn (ErrorObj (lit "ENOENT: no such file or directory, unlink '"
                                   ++ filepath f ++ lit "'"))] |}].
Proof.
  intros Hreq Hcode Hgone.
  rewrite (V1_handler_accepted h req f s w Hreq), !V1_run. cbv zeta.
  rewrite Hcode. cbn [exitedNonZero fst snd]. split.
  - eexists. split; reflexivity.
  - unfold cleaned, afterRun. cbn [disk]. rewrite Hgone.
    unfold addLog. cbn [console]. now rewrite console_staged.
Qed.

Lemma failed_deletion_keeps_answer_witness :
  console
    (snd (V1.handler
            (sampleHost
               {| events := [StdoutData (lit "File renamed successfully to: final.pdf")];
                  exitCode := Some 0%Z;
                  diskEffect := fun d => lit "/tmp/document-analyzer/final.pdf"
                                         :: removePath stagedPdf d |})
            uploadRequest emptyWorld))
  = console emptyWorld
    ++ [{| level := LevelError;
           logged :=
             [ArgStr (lit "Error deleting temporary file:");
              ArgExn (ErrorObj (lit "ENOENT: no such file or directory, unlink '"
                                ++ filepath {| filepath := stagedPdf |} ++ lit "'"))] |}].
Proof.
  apply (failed_deletion_keeps_answer
           (sampleHost
              {| events := [StdoutData (lit "File renamed successfully to: final.pdf")];
                 exitCode := Some 0%Z;
                 diskEffect := fun d => lit "/tmp/document-analyzer/final.pdf"
                                        :: removePath stagedPdf d |})
           uploadRequest {| filepath := stagedPdf |} (lit "date_vendor") emptyWorld
           eq_refl eq_refl eq_refl).
Defined.

(** A process is launched for a request exactly when it is a [POST] whose
    parsed form holds a file and a non-empty naming convention, and then
    exactly once; in both revisions. *)
Theorem launch_iff_accepted (h : Host) (req : Request) (w : World) :
  spawned (snd (V1.handler h req w))
  = spawned w
    ++ match acceptedUpload req with
       | Some (f, s) => [callV1 h (filepath f) s]
       | None => []
       end
  /\ spawned (snd (V2.handler h req w))
     = spawned w
       ++ match acceptedUpload req with
          | Some (f, s) => [callV2 h (filepath f) s]
          | None => []
          end.
Proof.
  destruct (request_cases req)
    as [HP|[HP [(err & HF & Hn)|[(nc & file & HF & HM & Hn)|(f & s & Hacc)]]]].
  - assert (Hn : acceptedUpload req = None)
      by (unfold acceptedUpload; now rewrite HP).
    rewrite Hn, app_nil_r. split.
    + unfold V1.handler. rewrite HP.
      destruct (methodIs req (lit "OPTIONS")); reflexivity.
    + unfold V2.handler. now rewrite HP.
  - rewrite Hn, app_nil_r.
    rewrite (V1_handler_parse_error h req err w HP HF).
    rewrite (V2_handler_parse_error h req err w HP HF).
    unfold addLog. cbn [snd spawned]. now rewrite spawned_prepared.
  - rewrite Hn, app_nil_r.
    rewrite (V1_handler_rejected h req nc file w HP HF HM).
    rewrite (V2_handler_rejected h req nc file w HP HF HM).
    cbn [snd]. now rewrite spawned_staged.
  - rewrite Hacc. split.
    + now apply V1_spawned_accepted.
    + now apply V2_spawned_accepted.
Qed.

(** A request that is neither a pre-flight nor handed to the analyzer is
    treated alike by the two revisions: the same answer, the same world. *)
Theorem revisions_handle_alike (h : Host) (req : Request) (w : World) :
  methodIs req (lit "OPTIONS") = false ->
  acceptedUpload req = None ->
  V2.handler h req w = V1.handler h req w.
Proof.
  intros HO Hn.
  destruct (request_cases req)
    as [HP|[HP [(err & HF & _)|[(nc & file & HF & HM & _)|(f & s & Hacc)]]]].
  - unfold V1.handler, V2.handler. now rewrite HO, HP.
  - now rewrite (V1_handler_parse_error h req err w HP HF),
                (V2_handler_parse_error h req err w HP HF).
  - now rewrite (V1_handler_rejected h req nc file w HP HF HM),
                (V2_handler_rejected h req nc file w HP HF HM).
  - congruence.
Qed.

Lemma revisions_handle_alike_witness :
  V2.handler (sampleHost (quietRun [] (Some 0%Z))) uploadWithoutFile emptyWorld
  = V1.handler (sampleHost (quietRun [] (Some 0%Z))) uploadWithoutFile emptyWorld.
Proof.
  apply (revisions_handle_alike
           (sampleHost (quietRun [] (Some 0%Z))) uploadWithoutFile emptyWorld
           eq_refl eq_refl).
Defined.

Lemma revisions_run_alike_witness :
  fst (V2.runPythonScript
         (sampleHost
            (quietRun [StdoutData (lit "Extracted information: A Generated new filename: B");
                       StderrData (lit "note")] (Some 0%Z)))
         stagedPdf (lit "date_vendor") emptyWorld)
  = fst (V1.runPythonScript
           (sampleHost
              (quietRun [StdoutData (lit "Extracted information: A Generated new filename: B");
                         StderrData (lit "note")] (Some 0%Z)))
           stagedPdf (lit "date_vendor") emptyWorld).
Proof.
  apply (revisions_run_alike
           (sampleHost
              (quietRun [StdoutData (lit "Extracted information: A Generated new filename: B");
                         StderrData (lit "note")] (Some 0%Z)))
           stagedPdf (lit "date_vendor") emptyWorld eq_refl).
  intros c [<-|[]]. split; reflexivity.
Defined.


Lemma failure_path_skips_cleanup_witness :
  disk (snd (V1.handler (sampleHost (quietRun [] (Some 3%Z))) uploadRequest emptyWorld))
  = diskEffect
      (runOf (sampleHost (quietRun [] (Some 3%Z)))
         (callV1 (sampleHost (quietRun [] (Some 3%Z)))
            (filepath {| filepath := stagedPdf |}) (lit "date_vendor")))
      (disk (staged (sampleHost (quietRun [] (Some 3%Z))) uploadRequest emptyWorld)).
Proof.
  apply (failure_path_skips_cleanup
           (sampleHost (quietRun [] (Some 3%Z))) uploadRequest
           {| filepath := stagedPdf |} (lit "date_vendor") emptyWorld
           eq_refl ltac:(discriminate)).
Defined.

End HandlerProperties.

(* ===================================================================== *)
(** ** The page *)
(* ===================================================================== *)

Section PageProperties.

(** Without a file or with an empty convention, [handleSubmit] shows the
    alert and does nothing else: no request, no change of state. *)
Theorem submit_without_input_only_alerts
    (net : Page.FetchOutcome) (s : Page.State) :
  Page.file s = None \/ Page.namingConvention s = [] ->
  Page.handleSubmit net s
  = (s, [Page.Alert (lit "Please select a file and enter a naming convention")]).
Proof.
  intros [H|H]; unfold Page.handleSubmit, Page.submitBegin; rewrite H;
    [reflexivity|]. destruct (Page.file s); reflexivity.
Qed.

Lemma submit_without_input_only_alerts_witness :
  Page.handleSubmit (Page.FetchRejected (lit "Failed to fetch"))
    (Page.setNamingConvention (lit "date_vendor") Page.initial)
  = (Page.setNamingConvention (lit "date_vendor") Page.initial,
     [Page.Alert (lit "Please select a file and enter a naming convention")]).
Proof.
  apply (submit_without_input_only_alerts
           (Page.FetchRejected (lit "Failed to fetch"))
           (Page.setNamingConvention (lit "date_vendor") Page.initial)
           (or_introl eq_refl)).
Defined.



(** Of an answer whose status is not 2xx the page keeps the status only:
    whatever the body says, the result shown is a failure with the message
    ["Error processing file: Error: <status>"]. *)
Theorem only_status_of_failure_is_shown
    (status : N) (json : Page.JsonOutcome) (s : Page.State) (f : Page.PickedFile) :
  Page.file s = Some f ->
  Page.namingConvention s <> [] ->
  Page.responseOk status = false ->
  Page.result (fst (Page.handleSubmit (Page.FetchResolved status json) s))
  = Some [(lit "extractedInfo", JString []);
          (lit "newFilename", JString []);
          (lit "success", JBool false);
          (lit "message",
           JString (lit "Error processing file: " ++ lit "Error: "
                    ++ ofZ (Z.of_N status)))]
  /\ Page.heading (fst (Page.handleSubmit (Page.FetchResolved status json) s))
     = Some (lit "Analysis Failed").
Proof.
  intros Hf Hn Hok. unfold Page.handleSubmit, Page.submitBegin. rewrite Hf.
  destruct (Page.namingConvention s) as [|c t] eqn:E; [congruence|].
  unfold Page.submitEnd, Page.awaitData. rewrite Hok. cbn [negb fst].
  split; reflexivity.
Qed.

Lemma only_status_of_failure_is_shown_witness :
  Page.result
    (fst (Page.handleSubmit
            (Page.FetchResolved 500
               (Page.JsonData
                  [(lit "success", JBool false);
                   (lit "message", JString (lit "Server error: boom"))]))
            readyPage))
  = Some [(lit "extractedInfo", JString []);
          (lit "newFilename", JString []);
          (lit "success", JBool false);
          (lit "message",
           JString (lit "Error processing file: " ++ lit "Error: "
                    ++ ofZ (Z.of_N 500)))].
Proof.
  apply (only_status_of_failure_is_shown 500
           (Page.JsonData
              [(lit "success", JBool false);
               (lit "message", JString (lit "Server error: boom"))])
           readyPage {| Page.pickedName := lit "invoice.pdf" |} eq_refl).
  - discriminate.
  - reflexivity.
Defined.



(** The button and the handler agree: when the button is enabled the
    submission passes the check and sends its request, and the button is
    disabled from then until the request has settled. *)
Theorem button_guards_submit (net : Page.FetchOutcome) (s : Page.State) :
  Page.submitDisabled s = false ->
  exists s' f,
    Page.submitBegin s
    = (Some s', [Page.Fetch (lit "/api/process-document") (lit "POST") f
                            (Page.namingConvention s)])
    /\ Page.file s = Some f
    /\ Page.submitDisabled s' = true
    /\ Page.submitDisabled (fst (Page.submitEnd net s')) = false.
Proof.
  unfold Page.submitDisabled, Page.submitBegin. intros H.
  destruct (Page.isProcessing s) eqn:Ep; [discriminate|].
  destruct (Page.file s) as [f|] eqn:Ef; [|discriminate].
  destruct (Page.namingConvention s) as [|c t] eqn:En; [discriminate|].
  eexists. exists f. split; [reflexivity|]. split; [reflexivity|].
  split; [reflexivity|].
  unfold Page.submitEnd. destruct (Page.awaitData net); cbn; now rewrite Ef, En.
Qed.

Lemma button_guards_submit_witness :
  exists s' f,
    Page.submitBegin readyPage
    = (Some s', [Page.Fetch (lit "/api/process-document") (lit "POST") f
                            (Page.namingConvention readyPage)])
    /\ Page.file readyPage = Some f
    /\ Page.submitDisabled s' = true
    /\ Page.submitDisabled
         (fst (Page.submitEnd (Page.FetchRejected (lit "Failed to fetch")) s'))
       = false.
Proof.
  apply (button_guards_submit (Page.FetchRejected (lit "Failed to fetch"))
           readyPage eq_refl).
Defined.

(** After "Process Another Document" the convention is still there, the
    file and the result are gone, and a submission only shows the alert. *)
Theorem reset_keeps_convention (net : Page.FetchOutcome) (s : Page.State) :
  Page.namingConvention (Page.resetForm s) = Page.namingConvention s
  /\ Page.file (Page.resetForm s) = None
  /\ Page.heading (Page.resetForm s) = None
  /\ Page.submitDisabled (Page.resetForm s) = true
  /\ Page.handleSubmit net (Page.resetForm s)
     = (Page.resetForm s,
        [Page.Alert (lit "Please select a file and enter a naming convention")]).
Proof.
  repeat split.
  unfold Page.submitDisabled, Page.resetForm. cbn.
  now rewrite orb_true_r.
Qed.

End PageProperties.
